(** * Pong: the simulation step of [script.js]

    A shallow embedding of the game state and of [resetBall], [clamp], [update]
    and the input handlers of [src/script.js], and the properties of the
    specification proved (or refuted) on it.

    JavaScript numbers are modelled as real numbers: [Math.max], [Math.min],
    [Math.abs], [Math.hypot], [Math.cos], [Math.sin] and [Math.PI] are [Rmax],
    [Rmin], [Rabs], the square root of the sum of squares, [cos], [sin] and
    [PI].  Rounding, infinities and NaN are outside the model.  The score
    counters only ever hold 0, 1, 2, ... and are natural numbers.

    [Math.random()] is an input: every function that draws random numbers
    takes the values drawn as arguments, in the order of the calls.

    The sound functions ([playTone] and its callers) only talk to the audio
    device and catch every exception; they read and write nothing of the
    simulation state and are left out, with [audioCtx] and [audioUnlocked].
    Which of them [update] calls in a tick is given by [updateSounds].
    [draw] only reads the state and is left out too. *)

From Stdlib Require Import Reals Lra Bool Arith Lia List.

Open Scope R_scope.

(** ** Data *)

(** [player] and [cpu].  The object [cpu] has no [dy] field in the source; the
    field is never read for it, and is 0 in [cpu0] below. *)
Module Paddle.
Record t : Type := mk
  { x : R; y : R; width : R; height : R; dy : R; speed : R }.

Definition set_y (p : t) (v : R) : t :=
  mk (x p) v (width p) (height p) (dy p) (speed p).

Definition set_dy (p : t) (v : R) : t :=
  mk (x p) (y p) (width p) (height p) v (speed p).
End Paddle.

(** [ball]. *)
Module Ball.
Record t : Type := mk
  { x : R; y : R; r : R; speed : R; vx : R; vy : R }.

Definition set_x (b : t) (v : R) : t :=
  mk v (y b) (r b) (speed b) (vx b) (vy b).

Definition set_y (b : t) (v : R) : t :=
  mk (x b) v (r b) (speed b) (vx b) (vy b).

Definition set_speed (b : t) (v : R) : t :=
  mk (x b) (y b) (r b) v (vx b) (vy b).

Definition set_vx (b : t) (v : R) : t :=
  mk (x b) (y b) (r b) (speed b) v (vy b).

Definition set_vy (b : t) (v : R) : t :=
  mk (x b) (y b) (r b) (speed b) (vx b) v.
End Ball.

(** [score]. *)
Module Score.
Record t : Type := mk { player : nat; cpu : nat }.
End Score.

(** [keyState]. *)
Module KeyState.
Record t : Type := mk { ArrowUp : bool; ArrowDown : bool }.
End KeyState.

(** The global variables of the script that the simulation reads or writes. *)
Record state : Type := mkState
  { player : Paddle.t;
    cpu : Paddle.t;
    ball : Ball.t;
    score : Score.t;
    paused : bool;
    mouseActive : bool;
    keyState : KeyState.t }.

Definition set_player (s : state) (p : Paddle.t) : state :=
  mkState p (cpu s) (ball s) (score s) (paused s) (mouseActive s) (keyState s).

Definition set_cpu (s : state) (p : Paddle.t) : state :=
  mkState (player s) p (ball s) (score s) (paused s) (mouseActive s) (keyState s).

Definition set_ball (s : state) (b : Ball.t) : state :=
  mkState (player s) (cpu s) b (score s) (paused s) (mouseActive s) (keyState s).

Definition set_score (s : state) (c : Score.t) : state :=
  mkState (player s) (cpu s) (ball s) c (paused s) (mouseActive s) (keyState s).

Definition set_paused (s : state) (v : bool) : state :=
  mkState (player s) (cpu s) (ball s) (score s) v (mouseActive s) (keyState s).

Definition set_mouseActive (s : state) (v : bool) : state :=
  mkState (player s) (cpu s) (ball s) (score s) (paused s) v (keyState s).

Definition set_keyState (s : state) (k : KeyState.t) : state :=
  mkState (player s) (cpu s) (ball s) (score s) (paused s) (mouseActive s) k.

(** The argument of [resetBall]: ['left'], ['right'], or [null] ([None]). *)
Inductive direction : Type := dir_left | dir_right.

(** [e.code] of a keyboard event. *)
Inductive keycode : Type := Code_ArrowUp | Code_ArrowDown | Code_other.

(** The sound functions that [update] calls. *)
Inductive sound : Type := WallSound | PaddleSound | ScoreSound.

(** Comparisons of numbers, as booleans. *)
Definition Rle_b (a b : R) : bool := if Rle_dec a b then true else false.
Definition Rlt_b (a b : R) : bool := if Rlt_dec a b then true else false.

(** ** Constants *)

Definition PADDLE_WIDTH : R := 10.
Definition PADDLE_HEIGHT : R := 100.
Definition PADDING : R := 12.
Definition MAX_BOUNCE_ANGLE : R := (5 * PI) / 12.

(** [function clamp(v, a, b) { return Math.max(a, Math.min(b, v)); }] *)
Definition clamp (v a b : R) : R := Rmax a (Rmin b v).

(** [Math.hypot(a, b)]. *)
Definition hypot (a b : R) : R := sqrt (a * a + b * b).

(** The angle of a velocity from the horizontal, [atan2(vy, |vx|)], for a
    velocity that is not vertical. *)
Definition angle_from_horizontal (vx vy : R) : R := atan (vy / Rabs vx).

(** [relativeY], computed the same way in both paddle collisions: the offset
    of the ball from the paddle's centre, in half paddle heights. *)
Definition relativeY (b : Ball.t) (p : Paddle.t) : R :=
  (Ball.y b - (Paddle.y p + Paddle.height p / 2)) / (Paddle.height p / 2).

(** Degrees, in radians. *)
Definition degrees (d : R) : R := d * PI / 180.

(** ** The program *)

Section Pong.

(** [canvas.width] and [canvas.height]: the canvas element is declared in the
    page, not in the script. *)
Variables WIDTH HEIGHT : R.

(** The objects as the script creates them. *)
Definition player0 : Paddle.t :=
  Paddle.mk PADDING ((HEIGHT - PADDLE_HEIGHT) / 2) PADDLE_WIDTH PADDLE_HEIGHT 0 6.

Definition cpu0 : Paddle.t :=
  Paddle.mk (WIDTH - PADDING - PADDLE_WIDTH) ((HEIGHT - PADDLE_HEIGHT) / 2)
            PADDLE_WIDTH PADDLE_HEIGHT 0 5.

Definition ball0 : Ball.t := Ball.mk (WIDTH / 2) (HEIGHT / 2) 8 6 0 0.

Definition state0 : state :=
  mkState player0 cpu0 ball0 (Score.mk 0 0) false false (KeyState.mk false false).

(** [resetBall(direction)].  [rnd1] is the value of the first call of
    [Math.random()] (the angle) and [rnd2] of the second, which is made only
    when [direction] is neither ['left'] nor ['right']. *)
Definition resetBall (d : option direction) (rnd1 rnd2 : R) (s : state) : state :=
  let b := Ball.set_x (ball s) (WIDTH / 2) in
  let b := Ball.set_y b (HEIGHT / 2) in
  let b := Ball.set_speed b 6 in
  let angle := rnd1 * (PI / 3) - PI / 6 in
  let dir :=
    match d with
    | Some dir_left => -1
    | Some dir_right => 1
    | None => if Rlt_b rnd2 (1 / 2) then -1 else 1
    end in
  let b := Ball.set_vx b (dir * Ball.speed b * cos angle) in
  let b := Ball.set_vy b (Ball.speed b * sin angle) in
  set_ball s b.

(** [update], lines 183-191: player keyboard movement. *)
Definition playerKeyboard (dt : R) (s : state) : state :=
  let p := player s in
  let p :=
    if KeyState.ArrowUp (keyState s) then Paddle.set_dy p (- Paddle.speed p)
    else if KeyState.ArrowDown (keyState s) then Paddle.set_dy p (Paddle.speed p)
    else Paddle.set_dy p 0 in
  let p := Paddle.set_y p (Paddle.y p + Paddle.dy p * dt) in
  let p := Paddle.set_y p (clamp (Paddle.y p) 0 (HEIGHT - Paddle.height p)) in
  set_player s p.

(** [update], lines 193-205: the CPU paddle follows the ball. *)
Definition cpuAI (dt : R) (s : state) : state :=
  let c := cpu s in
  let targetY :=
    if Rlt_b 0 (Ball.vx (ball s))
    then Ball.y (ball s) - Paddle.height c / 2
    else HEIGHT / 2 - Paddle.height c / 2 in
  let delta := targetY - Paddle.y c in
  let maxStep := Paddle.speed c * dt * 10 in
  let c := Paddle.set_y c (Paddle.y c + clamp delta (- maxStep) maxStep) in
  let c := Paddle.set_y c (clamp (Paddle.y c) 0 (HEIGHT - Paddle.height c)) in
  set_cpu s c.

(** [update], lines 207-209: move the ball. *)
Definition moveBall (dt : R) (s : state) : state :=
  let b := ball s in
  let b := Ball.set_x b (Ball.x b + Ball.vx b * dt * 10) in
  let b := Ball.set_y b (Ball.y b + Ball.vy b * dt * 10) in
  set_ball s b.

(** [update], lines 211-220: collide with the top and bottom walls. *)
Definition collideWalls (s : state) : state :=
  let b := ball s in
  if Rle_b (Ball.y b - Ball.r b) 0 then
    let b := Ball.set_y b (Ball.r b) in
    let b := Ball.set_vy b (- Ball.vy b) in
    set_ball s b
  else if Rle_b HEIGHT (Ball.y b + Ball.r b) then
    let b := Ball.set_y b (HEIGHT - Ball.r b) in
    let b := Ball.set_vy b (- Ball.vy b) in
    set_ball s b
  else s.

(** The condition of the left (player) paddle collision, lines 224-227. *)
Definition hitsPlayer (s : state) : bool :=
  let b := ball s in
  let p := player s in
  Rle_b (Ball.x b - Ball.r b) (Paddle.x p + Paddle.width p) &&
  Rle_b (Paddle.x p) (Ball.x b - Ball.r b) &&
  Rle_b (Paddle.y p) (Ball.y b + Ball.r b) &&
  Rle_b (Ball.y b - Ball.r b) (Paddle.y p + Paddle.height p).

(** The body of the left paddle collision, lines 229-235. *)
Definition bouncePlayer (s : state) : state :=
  let b := ball s in
  let p := player s in
  let bounceAngle := relativeY b p * MAX_BOUNCE_ANGLE in
  let speed := hypot (Ball.vx b) (Ball.vy b) + 0.2 in
  let b := Ball.set_vx b (Rabs (cos bounceAngle * speed)) in
  let b := Ball.set_vy b (sin bounceAngle * speed) in
  let b := Ball.set_x b (Paddle.x p + Paddle.width p + Ball.r b + 0.5) in
  set_ball s b.

Definition collidePlayer (s : state) : state :=
  if hitsPlayer s then bouncePlayer s else s.

(** The condition of the right (cpu) paddle collision, lines 240-243. *)
Definition hitsCpu (s : state) : bool :=
  let b := ball s in
  let c := cpu s in
  Rle_b (Paddle.x c) (Ball.x b + Ball.r b) &&
  Rle_b (Ball.x b + Ball.r b) (Paddle.x c + Paddle.width c) &&
  Rle_b (Paddle.y c) (Ball.y b + Ball.r b) &&
  Rle_b (Ball.y b - Ball.r b) (Paddle.y c + Paddle.height c).

(** The body of the right paddle collision, lines 244-249. *)
Definition bounceCpu (s : state) : state :=
  let b := ball s in
  let c := cpu s in
  let bounceAngle := relativeY b c * MAX_BOUNCE_ANGLE in
  let speed := hypot (Ball.vx b) (Ball.vy b) + 0.2 in
  let b := Ball.set_vx b (- Rabs (cos bounceAngle * speed)) in
  let b := Ball.set_vy b (sin bounceAngle * speed) in
  let b := Ball.set_x b (Paddle.x c - Ball.r b - 0.5) in
  set_ball s b.

Definition collideCpu (s : state) : state :=
  if hitsCpu s then bounceCpu s else s.

(** [update], lines 253-269: score conditions.  [rnd] is the value that
    [Math.random()] returns inside [resetBall]; the direction is given, so
    there is no second call.  The timer that clears [paused] 700 ms later is
    the event [TimerFired] below. *)
Definition scoreConditions (rnd : R) (s : state) : state :=
  if Rlt_b (Ball.x (ball s)) (- 50) then
    let s := set_score s (Score.mk (Score.player (score s)) (Score.cpu (score s) + 1)%nat) in
    let s := resetBall (Some dir_right) rnd 0 s in
    set_paused s true
  else if Rlt_b (WIDTH + 50) (Ball.x (ball s)) then
    let s := set_score s (Score.mk (Score.player (score s) + 1)%nat (Score.cpu (score s))) in
    let s := resetBall (Some dir_left) rnd 0 s in
    set_paused s true
  else s.

(** The state of [update] when it reaches the paddle collisions, and when it
    reaches the score conditions. *)
Definition beforePaddles (dt : R) (s : state) : state :=
  collideWalls (moveBall dt (cpuAI dt (playerKeyboard dt s))).

Definition beforeScore (dt : R) (s : state) : state :=
  collideCpu (collidePlayer (beforePaddles dt s)).

(** [update(dt)]. *)
Definition update (dt rnd : R) (s : state) : state :=
  scoreConditions rnd (beforeScore dt s).

(** The [mousemove] handler; [y] is [e.clientY - rect.top]. *)
Definition mousemove (y : R) (s : state) : state :=
  let p := player s in
  let p := Paddle.set_y p (clamp (y - Paddle.height p / 2) 0 (HEIGHT - Paddle.height p)) in
  set_mouseActive (set_player s p) true.

(** The [keydown] and [keyup] handlers. *)
Definition keydown (c : keycode) (s : state) : state :=
  match c with
  | Code_ArrowUp => set_keyState s (KeyState.mk true (KeyState.ArrowDown (keyState s)))
  | Code_ArrowDown => set_keyState s (KeyState.mk (KeyState.ArrowUp (keyState s)) true)
  | Code_other => s
  end.

Definition keyup (c : keycode) (s : state) : state :=
  match c with
  | Code_ArrowUp => set_keyState s (KeyState.mk false (KeyState.ArrowDown (keyState s)))
  | Code_ArrowDown => set_keyState s (KeyState.mk (KeyState.ArrowUp (keyState s)) false)
  | Code_other => s
  end.

(** The [click] handler, and the callback of the timer set on a score. *)
Definition click (s : state) : state :=
  if paused s then set_paused s false else s.

Definition timer (s : state) : state := set_paused s false.

(** One animation frame of [loop]: [update] runs unless [paused]; [elapsed]
    is the normalised time since the previous frame. *)
Definition frame (elapsed rnd : R) (s : state) : state :=
  if paused s then s else update elapsed rnd s.

(** What can happen to the state: the events the script listens to, and the
    frames, whose elapsed time is not negative since the time stamps of
    [requestAnimationFrame] do not decrease. *)
Inductive event : Type :=
| Frame (elapsed rnd : R)
| MouseMove (y : R)
| KeyDown (c : keycode)
| KeyUp (c : keycode)
| Click
| TimerFired.

Definition handle (e : event) (s : state) : state :=
  match e with
  | Frame elapsed rnd => frame elapsed rnd s
  | MouseMove y => mousemove y s
  | KeyDown c => keydown c s
  | KeyUp c => keyup c s
  | Click => click s
  | TimerFired => timer s
  end.

Definition admissible (e : event) : Prop :=
  match e with
  | Frame elapsed rnd => 0 <= elapsed /\ 0 <= rnd < 1
  | _ => True
  end.

(** The states the running script can be in: it starts with [resetBall()]
    on the initial objects, then handles events. *)
Inductive reachable : state -> Prop :=
| reach_init : forall rnd1 rnd2,
    0 <= rnd1 < 1 -> 0 <= rnd2 < 1 ->
    reachable (resetBall None rnd1 rnd2 state0)
| reach_event : forall e s,
    reachable s -> admissible e -> reachable (handle e s).

(** A tick of the specification's simulation step: the input source gives the
    state of the keys (in [keyState]) and possibly a pointer sample, which the
    [mousemove] handler takes in before [update] runs. *)
Definition tick (pointer : option R) (dt rnd : R) (s : state) : state :=
  match pointer with
  | Some y => update dt rnd (mousemove y s)
  | None => update dt rnd s
  end.

(** [loop(ts)], without the drawing and the request of the next frame:
    [lastTime] is the variable of that name, given and returned beside the
    state; [!lastTime] holds when it is 0. *)
Definition loop (ts rnd : R) (lastTime : R) (s : state) : R * state :=
  let lastTime := if Req_dec_T lastTime 0 then ts else lastTime in
  let elapsed := (ts - lastTime) / 16.6667 in
  (ts, if paused s then s else update elapsed rnd s).

(** The sounds that [update] plays, in order: the calls of [playWallSound],
    [playPaddleSound] and [playScoreSound] on lines 215, 219, 236, 250, 257
    and 265, each under [if (audioUnlocked)]. *)
Definition updateSounds (audioUnlocked : bool) (dt : R) (s : state) : list sound :=
  let s0 := moveBall dt (cpuAI dt (playerKeyboard dt s)) in
  let s1 := collideWalls s0 in
  let s2 := collidePlayer s1 in
  let s3 := collideCpu s2 in
  if audioUnlocked then
    (if Rle_b (Ball.y (ball s0) - Ball.r (ball s0)) 0 then cons WallSound nil
     else if Rle_b HEIGHT (Ball.y (ball s0) + Ball.r (ball s0)) then cons WallSound nil
     else nil)
    ++ (if hitsPlayer s1 then cons PaddleSound nil else nil)
    ++ (if hitsCpu s2 then cons PaddleSound nil else nil)
    ++ (if Rlt_b (Ball.x (ball s3)) (- 50) then cons ScoreSound nil
        else if Rlt_b (WIDTH + 50) (Ball.x (ball s3)) then cons ScoreSound nil
        else nil)
  else nil.

(** Events handled one after the other. *)
Fixpoint run (es : list event) (s : state) : state :=
  match es with
  | nil => s
  | cons e es => run es (handle e s)
  end.

End Pong.

(** The fields of the objects that no code assigns: the geometry of the
    paddles, their speeds, and the radius of the ball. *)
Definition fixed_fields (WIDTH : R) (s : state) : Prop :=
  Paddle.x (player s) = PADDING /\
  Paddle.width (player s) = PADDLE_WIDTH /\
  Paddle.height (player s) = PADDLE_HEIGHT /\
  Paddle.speed (player s) = 6 /\
  Paddle.x (cpu s) = WIDTH - PADDING - PADDLE_WIDTH /\
  Paddle.width (cpu s) = PADDLE_WIDTH /\
  Paddle.height (cpu s) = PADDLE_HEIGHT /\
  Paddle.speed (cpu s) = 5 /\
  Ball.r (ball s) = 8.

(** A paddle's [y] is within the field. *)
Definition in_field (HEIGHT : R) (p : Paddle.t) : Prop :=
  0 <= Paddle.y p <= HEIGHT - Paddle.height p.

(** The speed of the ball: the magnitude of its velocity. *)
Definition ballSpeed (b : Ball.t) : R := hypot (Ball.vx b) (Ball.vy b).

(** The velocity that the keys ask for, as [update] stores it in [player.dy]. *)
Definition keyVelocity (s : state) : R :=
  if KeyState.ArrowUp (keyState s) then - Paddle.speed (player s)
  else if KeyState.ArrowDown (keyState s) then Paddle.speed (player s)
  else 0.

(** ** Example states

    On a canvas of 800 by 600, unless said otherwise. *)

(** The script just started, with 1/2 and 0 drawn by [Math.random()]: the
    ball is served straight to the left. *)
Definition start_state : state := resetBall 800 600 None (1 / 2) 0 (state0 800 600).

(** A rally: the ball at the centre, flying straight to the right. *)
Definition rally_state : state :=
  set_ball (state0 800 600) (Ball.mk 400 300 8 6 6 0).

(** The ball at the left edge of the canvas, flying straight to the left, and
    at the right edge, flying to the right. *)
Definition exit_left_state : state :=
  set_ball (state0 800 600) (Ball.mk 0 300 8 6 (- 6) 0).

Definition exit_right_state : state :=
  set_ball (state0 800 600) (Ball.mk 800 300 8 6 6 0).

(** The ball in contact with the middle of the player paddle, and of the CPU
    paddle. *)
Definition hit_player_state : state :=
  set_ball (state0 800 600) (Ball.mk 25 300 8 6 (- 6) 0).

Definition hit_cpu_state : state :=
  set_ball (state0 800 600) (Ball.mk 775 300 8 6 6 0).

(** The ball 10 units in front of the player paddle, level with its middle,
    flying straight at it. *)
Definition fast_ball_state : state :=
  set_ball (state0 800 600) (Ball.mk 40 300 8 6 (- 6) 0).

(** The player holds Arrow Down. *)
Definition key_down_state : state := keydown Code_ArrowDown (state0 800 600).

(** On a canvas of 2000 by 200: the script starts with 0 and 0 drawn by
    [Math.random()] (the ball is served 30 degrees upward to the left), and a
    first frame of 4 normalised time units passes; the ball has bounced off
    the top wall and rests on it. *)
Definition wall_serve_state : state := resetBall 2000 200 None 0 0 (state0 2000 200).

Definition wall_rest_state : state := handle 2000 200 (Frame 4 0) wall_serve_state.

(** The y-coordinate that the CPU paddle heads for, [targetY] in [update]. *)
Definition cpuTarget (HEIGHT : R) (s : state) : R :=
  if Rlt_b 0 (Ball.vx (ball s))
  then Ball.y (ball s) - Paddle.height (cpu s) / 2
  else HEIGHT / 2 - Paddle.height (cpu s) / 2.

(** The key that a key code stands for is held. *)
Definition held (c : keycode) (s : state) : bool :=
  match c with
  | Code_ArrowUp => KeyState.ArrowUp (keyState s)
  | Code_ArrowDown => KeyState.ArrowDown (keyState s)
  | Code_other => false
  end.

(** The ball touches the lowest point of the player paddle that still
    satisfies the collision condition. *)
Definition graze_state : state :=
  set_ball (state0 800 600) (Ball.mk 25 358 8 6 (- 6) 0).

(** The ball near the top wall, flying up, and near the bottom wall, flying
    down. *)
Definition top_wall_state : state :=
  set_ball (state0 800 600) (Ball.mk 400 20 8 6 6 (- 3)).

Definition bottom_wall_state : state :=
  set_ball (state0 800 600) (Ball.mk 400 580 8 6 6 3).

(** The ball one tick away from the middle of the player paddle. *)
Definition approach_state : state :=
  set_ball (state0 800 600) (Ball.mk 85 300 8 6 (- 6) 0).

(** The ball in contact with the player paddle level with its lower end
    (relativeY = 1), and with the CPU paddle level with its upper end
    (relativeY = - 1). *)
Definition edge_hit_player_state : state :=
  set_ball (state0 800 600) (Ball.mk 25 350 8 6 (- 6) 0).

Definition edge_hit_cpu_state : state :=
  set_ball (state0 800 600) (Ball.mk 775 250 8 6 6 0).

(** ** Properties *)

(** *** Comparisons and [clamp] *)

Lemma Rle_b_true (a b : R) : Rle_b a b = true <-> a <= b.
Proof.
  unfold Rle_b. destruct (Rle_dec a b); split; intros; try assumption;
    try reflexivity; try discriminate. contradiction.
Qed.

Lemma Rle_b_false (a b : R) : Rle_b a b = false <-> b < a.
Proof.
  unfold Rle_b. destruct (Rle_dec a b); split; intros;
    try discriminate; try reflexivity; lra.
Qed.

Lemma Rlt_b_true (a b : R) : Rlt_b a b = true <-> a < b.
Proof.
  unfold Rlt_b. destruct (Rlt_dec a b); split; intros; try assumption;
    try reflexivity; try discriminate. contradiction.
Qed.

Lemma Rlt_b_false (a b : R) : Rlt_b a b = false <-> b <= a.
Proof.
  unfold Rlt_b. destruct (Rlt_dec a b); split; intros;
    try discriminate; try reflexivity; lra.
Qed.

Lemma clamp_bounds (v a b : R) : a <= b -> a <= clamp v a b <= b.
Proof.
  intros Hab. unfold clamp, Rmax, Rmin.
  destruct (Rle_dec b v); destruct (Rle_dec a _); lra.
Qed.

Lemma clamp_inside (v a b : R) : a <= v <= b -> clamp v a b = v.
Proof.
  intros Hv. unfold clamp, Rmax, Rmin.
  destruct (Rle_dec b v); destruct (Rle_dec a _); lra.
Qed.

Lemma clamp_zero_step (v : R) : clamp v (- 0) 0 = 0.
Proof.
  unfold clamp, Rmax, Rmin.
  destruct (Rle_dec 0 v); destruct (Rle_dec (- 0) _); lra.
Qed.

(** *** The magnitude of a velocity *)

Lemma hypot_nonneg (a b : R) : 0 <= hypot a b.
Proof. unfold hypot. apply sqrt_pos. Qed.

Lemma hypot_sqr (a b : R) : hypot a b * hypot a b = a * a + b * b.
Proof. unfold hypot. apply sqrt_sqrt. nra. Qed.

Lemma hypot_opp_r (a b : R) : hypot a (- b) = hypot a b.
Proof. unfold hypot. f_equal. ring. Qed.

Lemma hypot_opp_l (a b : R) : hypot (- a) b = hypot a b.
Proof. unfold hypot. f_equal. ring. Qed.

Lemma hypot_abs_l (a b : R) : hypot (Rabs a) b = hypot a b.
Proof.
  unfold Rabs. destruct (Rcase_abs a); [apply hypot_opp_l | reflexivity].
Qed.

(** A velocity of magnitude [v] at angle [a]: its magnitude is [v]. *)
Lemma hypot_polar (a v : R) : 0 <= v -> hypot (cos a * v) (sin a * v) = v.
Proof.
  intros Hv. unfold hypot.
  replace (cos a * v * (cos a * v) + sin a * v * (sin a * v))
    with ((Rsqr (sin a) + Rsqr (cos a)) * (v * v)) by (unfold Rsqr; ring).
  rewrite sin2_cos2, Rmult_1_l. apply sqrt_square, Hv.
Qed.

(** ... and its angle from the horizontal is [a], if it points less than a
    quarter turn up or down. *)
Lemma angle_polar (a v : R) :
  0 < v -> - (PI / 2) < a < PI / 2 ->
  angle_from_horizontal (cos a * v) (sin a * v) = a.
Proof.
  intros Hv Ha. unfold angle_from_horizontal.
  assert (Hc : 0 < cos a) by (apply cos_gt_0; lra).
  rewrite Rabs_pos_eq by nra.
  replace (sin a * v / (cos a * v)) with (tan a).
  - apply atan_tan, Ha.
  - unfold tan. field. lra.
Qed.

Lemma angle_abs_l (vx vy : R) :
  angle_from_horizontal (Rabs vx) vy = angle_from_horizontal vx vy.
Proof. unfold angle_from_horizontal. now rewrite Rabs_Rabsolu. Qed.

Lemma angle_opp_l (vx vy : R) :
  angle_from_horizontal (- vx) vy = angle_from_horizontal vx vy.
Proof. unfold angle_from_horizontal. now rewrite Rabs_Ropp. Qed.

Section Properties.

Variables WIDTH HEIGHT : R.

(** *** What each part of [update] leaves alone *)

Ltac stage_frame f :=
  intros; unfold f; cbv zeta;
  repeat match goal with
         | |- context [if ?c then _ else _] => destruct c
         end;
  reflexivity.

Lemma collideWalls_player s : player (collideWalls HEIGHT s) = player s.
Proof. stage_frame collideWalls. Qed.

Lemma collideWalls_cpu s : cpu (collideWalls HEIGHT s) = cpu s.
Proof. stage_frame collideWalls. Qed.

Lemma collideWalls_score s : score (collideWalls HEIGHT s) = score s.
Proof. stage_frame collideWalls. Qed.

Lemma collideWalls_ball_x s : Ball.x (ball (collideWalls HEIGHT s)) = Ball.x (ball s).
Proof. stage_frame collideWalls. Qed.

Lemma collideWalls_ball_vx s : Ball.vx (ball (collideWalls HEIGHT s)) = Ball.vx (ball s).
Proof. stage_frame collideWalls. Qed.

Lemma collideWalls_ball_r s : Ball.r (ball (collideWalls HEIGHT s)) = Ball.r (ball s).
Proof. stage_frame collideWalls. Qed.

Lemma collidePlayer_player s : player (collidePlayer s) = player s.
Proof. stage_frame collidePlayer. Qed.

Lemma collidePlayer_cpu s : cpu (collidePlayer s) = cpu s.
Proof. stage_frame collidePlayer. Qed.

Lemma collidePlayer_score s : score (collidePlayer s) = score s.
Proof. stage_frame collidePlayer. Qed.

Lemma collidePlayer_ball_r s : Ball.r (ball (collidePlayer s)) = Ball.r (ball s).
Proof. stage_frame collidePlayer. Qed.

Lemma collidePlayer_ball_y s : Ball.y (ball (collidePlayer s)) = Ball.y (ball s).
Proof. stage_frame collidePlayer. Qed.

Lemma collideCpu_player s : player (collideCpu s) = player s.
Proof. stage_frame collideCpu. Qed.

Lemma collideCpu_cpu s : cpu (collideCpu s) = cpu s.
Proof. stage_frame collideCpu. Qed.

Lemma collideCpu_score s : score (collideCpu s) = score s.
Proof. stage_frame collideCpu. Qed.

Lemma collideCpu_ball_r s : Ball.r (ball (collideCpu s)) = Ball.r (ball s).
Proof. stage_frame collideCpu. Qed.

Lemma collideCpu_ball_y s : Ball.y (ball (collideCpu s)) = Ball.y (ball s).
Proof. stage_frame collideCpu. Qed.

Lemma scoreConditions_player rnd s :
  player (scoreConditions WIDTH HEIGHT rnd s) = player s.
Proof. stage_frame scoreConditions. Qed.

Lemma scoreConditions_cpu rnd s :
  cpu (scoreConditions WIDTH HEIGHT rnd s) = cpu s.
Proof. stage_frame scoreConditions. Qed.

Lemma scoreConditions_ball_r rnd s :
  Ball.r (ball (scoreConditions WIDTH HEIGHT rnd s)) = Ball.r (ball s).
Proof. stage_frame scoreConditions. Qed.

(** The paddles, the score and the radius when [update] reaches the score
    conditions. *)
Lemma beforeScore_player dt s :
  player (beforeScore HEIGHT dt s) = player (playerKeyboard HEIGHT dt s).
Proof.
  unfold beforeScore, beforePaddles.
  now rewrite collideCpu_player, collidePlayer_player, collideWalls_player.
Qed.

Lemma beforeScore_cpu dt s :
  cpu (beforeScore HEIGHT dt s) = cpu (cpuAI HEIGHT dt s).
Proof.
  unfold beforeScore, beforePaddles.
  now rewrite collideCpu_cpu, collidePlayer_cpu, collideWalls_cpu.
Qed.

Lemma beforeScore_score dt s : score (beforeScore HEIGHT dt s) = score s.
Proof.
  unfold beforeScore, beforePaddles.
  now rewrite collideCpu_score, collidePlayer_score, collideWalls_score.
Qed.

Lemma beforeScore_ball_r dt s :
  Ball.r (ball (beforeScore HEIGHT dt s)) = Ball.r (ball s).
Proof.
  unfold beforeScore, beforePaddles.
  now rewrite collideCpu_ball_r, collidePlayer_ball_r, collideWalls_ball_r.
Qed.

Lemma update_player dt rnd s :
  player (update WIDTH HEIGHT dt rnd s) = player (playerKeyboard HEIGHT dt s).
Proof. unfold update. now rewrite scoreConditions_player, beforeScore_player. Qed.

Lemma update_cpu dt rnd s :
  cpu (update WIDTH HEIGHT dt rnd s) = cpu (cpuAI HEIGHT dt s).
Proof. unfold update. now rewrite scoreConditions_cpu, beforeScore_cpu. Qed.

(** *** The paddles stay in the field *)

Lemma playerKeyboard_in_field dt s :
  Paddle.height (player s) <= HEIGHT ->
  in_field HEIGHT (player (playerKeyboard HEIGHT dt s)).
Proof.
  intros Hh. unfold in_field, playerKeyboard; cbv zeta.
  destruct (KeyState.ArrowUp (keyState s)); [|destruct (KeyState.ArrowDown (keyState s))];
    simpl; apply clamp_bounds; lra.
Qed.

Lemma cpuAI_in_field dt s :
  Paddle.height (cpu s) <= HEIGHT ->
  in_field HEIGHT (cpu (cpuAI HEIGHT dt s)).
Proof.
  intros Hh. unfold in_field, cpuAI; simpl. apply clamp_bounds; lra.
Qed.

Lemma mousemove_in_field y s :
  Paddle.height (player s) <= HEIGHT ->
  in_field HEIGHT (player (mousemove HEIGHT y s)).
Proof.
  intros Hh. unfold in_field, mousemove; simpl. apply clamp_bounds; lra.
Qed.

(** The fields that no code assigns keep their values. *)
Lemma playerKeyboard_player_fixed dt s :
  let p := player (playerKeyboard HEIGHT dt s) in
  Paddle.x p = Paddle.x (player s) /\ Paddle.width p = Paddle.width (player s) /\
  Paddle.height p = Paddle.height (player s) /\ Paddle.speed p = Paddle.speed (player s).
Proof.
  unfold playerKeyboard; cbv zeta.
  destruct (KeyState.ArrowUp (keyState s)); [|destruct (KeyState.ArrowDown (keyState s))];
    simpl; repeat split.
Qed.

Lemma update_fixed_fields dt rnd s :
  fixed_fields WIDTH s -> fixed_fields WIDTH (update WIDTH HEIGHT dt rnd s).
Proof.
  unfold fixed_fields. intros H.
  rewrite update_player, update_cpu.
  destruct (playerKeyboard_player_fixed dt s) as (-> & -> & -> & ->).
  unfold update. rewrite scoreConditions_ball_r, beforeScore_ball_r.
  exact H.
Qed.

Lemma handle_fixed_fields e s :
  fixed_fields WIDTH s -> fixed_fields WIDTH (handle WIDTH HEIGHT e s).
Proof.
  intros H. destruct e as [dt rnd | y | c | c | |]; simpl.
  - unfold frame. destruct (paused s); [exact H | now apply update_fixed_fields].
  - exact H.
  - destruct c; exact H.
  - destruct c; exact H.
  - unfold click. destruct (paused s); exact H.
  - exact H.
Qed.

Lemma reachable_fixed_fields s :
  reachable WIDTH HEIGHT s -> fixed_fields WIDTH s.
Proof.
  induction 1 as [rnd1 rnd2 H1 H2 | e s Hs IH Ha].
  - unfold fixed_fields; simpl. repeat split; reflexivity.
  - now apply handle_fixed_fields.
Qed.

Lemma handle_in_field e s :
  PADDLE_HEIGHT <= HEIGHT -> fixed_fields WIDTH s ->
  in_field HEIGHT (player s) /\ in_field HEIGHT (cpu s) ->
  in_field HEIGHT (player (handle WIDTH HEIGHT e s)) /\
  in_field HEIGHT (cpu (handle WIDTH HEIGHT e s)).
Proof.
  intros HH Hf [Hp Hc].
  destruct Hf as (_ & _ & Hph & _ & _ & _ & Hch & _).
  destruct e as [dt rnd | y | c | c | |]; simpl.
  - unfold frame. destruct (paused s); [now split|].
    rewrite update_player, update_cpu. split.
    + apply playerKeyboard_in_field. lra.
    + apply cpuAI_in_field. lra.
  - split; [apply mousemove_in_field; lra | exact Hc].
  - destruct c; now split.
  - destruct c; now split.
  - unfold click. destruct (paused s); now split.
  - now split.
Qed.

(** C7: in every state that the running script can reach, both paddles'
    y-coordinates lie within [0, HEIGHT - PADDLE_HEIGHT]; so do they after
    [update] with any elapsed time, and the player's after a [mousemove]
    event (which does not move the CPU paddle).  The canvas is taken to be
    at least as high as a paddle. *)
Theorem paddles_stay_in_field s :
  PADDLE_HEIGHT <= HEIGHT ->
  reachable WIDTH HEIGHT s ->
  (0 <= Paddle.y (player s) <= HEIGHT - PADDLE_HEIGHT /\
   0 <= Paddle.y (cpu s) <= HEIGHT - PADDLE_HEIGHT) /\
  (forall dt rnd,
     let s' := update WIDTH HEIGHT dt rnd s in
     0 <= Paddle.y (player s') <= HEIGHT - PADDLE_HEIGHT /\
     0 <= Paddle.y (cpu s') <= HEIGHT - PADDLE_HEIGHT) /\
  (forall y,
     let s' := mousemove HEIGHT y s in
     0 <= Paddle.y (player s') <= HEIGHT - PADDLE_HEIGHT /\
     0 <= Paddle.y (cpu s') <= HEIGHT - PADDLE_HEIGHT).
Proof.
  intros HH Hr.
  assert (Hin : in_field HEIGHT (player s) /\ in_field HEIGHT (cpu s)).
  { induction Hr as [rnd1 rnd2 H1 H2 | e s Hs IH Ha].
    - unfold in_field; simpl. unfold PADDLE_HEIGHT in *. lra.
    - apply handle_in_field; auto using reachable_fixed_fields. }
  pose proof (reachable_fixed_fields s Hr) as Hf.
  assert (Hph : Paddle.height (player s) = PADDLE_HEIGHT) by apply Hf.
  assert (Hch : Paddle.height (cpu s) = PADDLE_HEIGHT) by apply Hf.
  unfold in_field in Hin. rewrite Hph, Hch in Hin.
  split; [exact Hin|]. split.
  - intros dt rnd s'. subst s'. rewrite update_player, update_cpu.
    pose proof (playerKeyboard_in_field dt s) as Hp.
    pose proof (cpuAI_in_field dt s) as Hc.
    unfold in_field in Hp, Hc.
    destruct (playerKeyboard_player_fixed dt s) as (_ & _ & Hk & _).
    rewrite Hk, Hph in Hp.
    change (Paddle.height (cpu (cpuAI HEIGHT dt s))) with (Paddle.height (cpu s)) in Hc.
    rewrite Hch in Hc.
    split; [apply Hp | apply Hc]; lra.
  - intros y s'. subst s'.
    pose proof (mousemove_in_field y s) as Hp. unfold in_field in Hp.
    change (Paddle.height (player (mousemove HEIGHT y s)))
      with (Paddle.height (player s)) in Hp.
    rewrite Hph in Hp.
    split; [apply Hp; lra | exact (proj2 Hin)].
Qed.

(** *** Serving *)

(** The angle that [resetBall] draws is within 30 degrees of the horizontal. *)
Lemma serve_angle_range rnd :
  0 <= rnd < 1 -> - (PI / 6) <= rnd * (PI / 3) - PI / 6 < PI / 6.
Proof. intros H. pose proof PI_RGT_0. nra. Qed.

Lemma serve_cos_pos rnd : 0 <= rnd < 1 -> 0 < cos (rnd * (PI / 3) - PI / 6).
Proof.
  intros H. pose proof (serve_angle_range rnd H). pose proof PI_RGT_0.
  apply cos_gt_0; lra.
Qed.

Lemma resetBall_ball d rnd1 rnd2 s :
  let b := ball (resetBall WIDTH HEIGHT d rnd1 rnd2 s) in
  let angle := rnd1 * (PI / 3) - PI / 6 in
  Ball.x b = WIDTH / 2 /\ Ball.y b = HEIGHT / 2 /\ Ball.speed b = 6 /\
  Ball.vy b = 6 * sin angle /\
  (Ball.vx b = 6 * cos angle \/ Ball.vx b = - (6 * cos angle)) /\
  (d = Some dir_left -> Ball.vx b = - (6 * cos angle)) /\
  (d = Some dir_right -> Ball.vx b = 6 * cos angle).
Proof.
  unfold resetBall; simpl. repeat split.
  - destruct d as [[|]|]; [right | left | destruct (Rlt_b rnd2 (1 / 2)); [right | left]]; ring.
  - intros ->. ring.
  - intros ->. ring.
Qed.

(** C9: for every value of [Math.random()] in [0, 1), [resetBall] gives the
    ball a velocity within 30 degrees of the horizontal and of magnitude 6
    (the fixed base speed, which it also stores in [ball.speed]), at the
    centre of the field; to the left ([vx < 0]) for ['left'], to the right
    ([vx > 0]) for ['right'].  For every direction, [null] included, the
    velocity is not vertical ([vx] is not 0), and its angle from the
    horizontal is the angle drawn, rnd * (PI / 3) - PI / 6. *)
Theorem serve_velocity d rnd1 rnd2 s :
  0 <= rnd1 < 1 ->
  let b := ball (resetBall WIDTH HEIGHT d rnd1 rnd2 s) in
  Rabs (angle_from_horizontal (Ball.vx b) (Ball.vy b)) <= degrees 30 /\
  ballSpeed b = 6 /\ Ball.speed b = 6 /\
  (d = Some dir_left -> Ball.vx b < 0) /\
  (d = Some dir_right -> 0 < Ball.vx b) /\
  Ball.vx b <> 0 /\ 0 < Rabs (Ball.vx b) /\
  angle_from_horizontal (Ball.vx b) (Ball.vy b) = rnd1 * (PI / 3) - PI / 6.
Proof.
  intros Hr b.
  destruct (resetBall_ball d rnd1 rnd2 s) as (_ & _ & Hs & Hvy & Hvx & Hl & Hrt).
  fold b in Hs, Hvy, Hvx, Hl, Hrt.
  pose proof (serve_angle_range rnd1 Hr) as Ha.
  pose proof (serve_cos_pos rnd1 Hr) as Hc.
  pose proof PI_RGT_0 as Hpi.
  set (a := rnd1 * (PI / 3) - PI / 6) in *.
  assert (Hang : angle_from_horizontal (Ball.vx b) (Ball.vy b) = a).
  { rewrite Hvy. replace (6 * sin a) with (sin a * 6) by ring.
    destruct Hvx as [-> | ->].
    - replace (6 * cos a) with (cos a * 6) by ring. apply angle_polar; lra.
    - rewrite angle_opp_l. replace (6 * cos a) with (cos a * 6) by ring.
      apply angle_polar; lra. }
  assert (Hmag : ballSpeed b = 6).
  { unfold ballSpeed. rewrite Hvy. replace (6 * sin a) with (sin a * 6) by ring.
    destruct Hvx as [-> | ->]; [|rewrite hypot_opp_l];
      replace (6 * cos a) with (cos a * 6) by ring; apply hypot_polar; lra. }
  assert (Hnz : Ball.vx b <> 0) by (destruct Hvx as [E | E]; rewrite E; lra).
  split; [|split; [|split; [|split; [|split; [|split; [|split]]]]]].
  - rewrite Hang. unfold degrees. apply Rabs_le. lra.
  - exact Hmag.
  - exact Hs.
  - intros Hd. rewrite (Hl Hd). lra.
  - intros Hd. rewrite (Hrt Hd). lra.
  - exact Hnz.
  - apply Rabs_pos_lt, Hnz.
  - exact Hang.
Qed.

(** *** Scoring *)

(** C8: in a tick in which the ball's x-coordinate ends below -50, the CPU's
    score goes up by exactly 1, the player's is unchanged, and the ball is
    put back at the centre of the field; above WIDTH + 50, the same for the
    player's score; in between no score changes; and in every tick the two
    scores together go up by at most 1. *)
Theorem score_conditions dt rnd s :
  0 <= WIDTH ->
  let m := beforeScore HEIGHT dt s in
  let s' := update WIDTH HEIGHT dt rnd s in
  (Ball.x (ball m) < - 50 ->
   Score.cpu (score s') = (Score.cpu (score s) + 1)%nat /\
   Score.player (score s') = Score.player (score s) /\
   Ball.x (ball s') = WIDTH / 2 /\ Ball.y (ball s') = HEIGHT / 2) /\
  (WIDTH + 50 < Ball.x (ball m) ->
   Score.player (score s') = (Score.player (score s) + 1)%nat /\
   Score.cpu (score s') = Score.cpu (score s) /\
   Ball.x (ball s') = WIDTH / 2 /\ Ball.y (ball s') = HEIGHT / 2) /\
  (- 50 <= Ball.x (ball m) <= WIDTH + 50 -> s' = m /\ score s' = score s) /\
  (Score.player (score s') + Score.cpu (score s') <=
   Score.player (score s) + Score.cpu (score s) + 1)%nat.
Proof.
  intros HW m s'. subst s'. unfold update. fold m.
  pose proof (beforeScore_score dt s) as Hsc. fold m in Hsc.
  unfold scoreConditions.
  split; [intros Hx | split; [intros Hx | split; [intros Hx|]]].
  - rewrite (proj2 (Rlt_b_true _ _) Hx). simpl. rewrite Hsc. repeat split.
  - rewrite (proj2 (Rlt_b_false _ _)) by lra.
    rewrite (proj2 (Rlt_b_true _ _) Hx). simpl. rewrite Hsc. repeat split.
  - rewrite (proj2 (Rlt_b_false _ _)) by lra.
    rewrite (proj2 (Rlt_b_false _ _)) by lra. split; [reflexivity | exact Hsc].
  - destruct (Rlt_b (Ball.x (ball m)) (- 50));
      [|destruct (Rlt_b (WIDTH + 50) (Ball.x (ball m)))];
      simpl; rewrite <- ?Hsc; lia.
Qed.

(** C1, as the code has it: after a score the ball is served from the centre
    toward the side that scored.  When the CPU scores (the ball left the
    field on the left) the serve goes right, toward the CPU ([vx > 0]); when
    the player scores (the ball left on the right) it goes left, toward the
    player ([vx < 0]). *)
Theorem serve_toward_scorer dt rnd s :
  0 <= WIDTH -> 0 <= rnd < 1 ->
  let m := beforeScore HEIGHT dt s in
  let s' := update WIDTH HEIGHT dt rnd s in
  (Ball.x (ball m) < - 50 ->
   Score.cpu (score s') = (Score.cpu (score s) + 1)%nat /\
   Ball.x (ball s') = WIDTH / 2 /\ Ball.y (ball s') = HEIGHT / 2 /\
   0 < Ball.vx (ball s')) /\
  (WIDTH + 50 < Ball.x (ball m) ->
   Score.player (score s') = (Score.player (score s) + 1)%nat /\
   Ball.x (ball s') = WIDTH / 2 /\ Ball.y (ball s') = HEIGHT / 2 /\
   Ball.vx (ball s') < 0).
Proof.
  intros HW Hr m s'. subst s'. unfold update. fold m.
  pose proof (beforeScore_score dt s) as Hsc. fold m in Hsc.
  pose proof (serve_cos_pos rnd Hr) as Hc.
  unfold scoreConditions. split; intros Hx.
  - rewrite (proj2 (Rlt_b_true _ _) Hx). simpl. rewrite Hsc.
    repeat split. lra.
  - rewrite (proj2 (Rlt_b_false _ _)) by lra.
    rewrite (proj2 (Rlt_b_true _ _) Hx). simpl. rewrite Hsc.
    repeat split. lra.
Qed.

(** *** Paddle bounces *)

Lemma bounce_speed_pos b : 0 < ballSpeed b + 0.2.
Proof. pose proof (hypot_nonneg (Ball.vx b) (Ball.vy b)). unfold ballSpeed. lra. Qed.

Lemma bouncePlayer_speed s :
  ballSpeed (ball (bouncePlayer s)) = ballSpeed (ball s) + 0.2.
Proof.
  pose proof (bounce_speed_pos (ball s)) as Hp.
  unfold bouncePlayer, ballSpeed in *; simpl.
  rewrite hypot_abs_l. apply hypot_polar. lra.
Qed.

Lemma bounceCpu_speed s :
  ballSpeed (ball (bounceCpu s)) = ballSpeed (ball s) + 0.2.
Proof.
  pose proof (bounce_speed_pos (ball s)) as Hp.
  unfold bounceCpu, ballSpeed in *; simpl.
  rewrite hypot_opp_l, hypot_abs_l. apply hypot_polar. lra.
Qed.

Lemma collidePlayer_speed_le s :
  ballSpeed (ball s) <= ballSpeed (ball (collidePlayer s)).
Proof.
  unfold collidePlayer. destruct (hitsPlayer s); [|lra].
  rewrite bouncePlayer_speed. lra.
Qed.

Lemma collideCpu_speed_le s :
  ballSpeed (ball s) <= ballSpeed (ball (collideCpu s)).
Proof.
  unfold collideCpu. destruct (hitsCpu s); [|lra].
  rewrite bounceCpu_speed. lra.
Qed.

Lemma collideWalls_speed s :
  ballSpeed (ball (collideWalls HEIGHT s)) = ballSpeed (ball s).
Proof.
  unfold collideWalls, ballSpeed; cbv zeta.
  destruct (Rle_b (Ball.y (ball s) - Ball.r (ball s)) 0);
    [|destruct (Rle_b HEIGHT (Ball.y (ball s) + Ball.r (ball s)))];
    simpl; try apply hypot_opp_r; reflexivity.
Qed.

Lemma beforeScore_speed_le dt s :
  ballSpeed (ball s) <= ballSpeed (ball (beforeScore HEIGHT dt s)).
Proof.
  unfold beforeScore.
  eapply Rle_trans; [|apply collideCpu_speed_le].
  eapply Rle_trans; [|apply collidePlayer_speed_le].
  unfold beforePaddles. rewrite collideWalls_speed. unfold ballSpeed; simpl. lra.
Qed.

(** C5: a bounce off either paddle turns a velocity of magnitude S into one
    of magnitude exactly S + 0.2, so that vx * vx + vy * vy becomes
    (S + 0.2) squared; hence the speed of the ball does not decrease through
    the collisions of a tick, nor through a tick in which nobody scores. *)
Theorem paddle_bounce_speed s :
  (hitsPlayer s = true ->
   let b' := ball (collidePlayer s) in
   ballSpeed b' = ballSpeed (ball s) + 0.2 /\
   Ball.vx b' * Ball.vx b' + Ball.vy b' * Ball.vy b' = Rsqr (ballSpeed (ball s) + 0.2)) /\
  (hitsCpu s = true ->
   let b' := ball (collideCpu s) in
   ballSpeed b' = ballSpeed (ball s) + 0.2 /\
   Ball.vx b' * Ball.vx b' + Ball.vy b' * Ball.vy b' = Rsqr (ballSpeed (ball s) + 0.2)) /\
  (forall dt rnd,
     ballSpeed (ball s) <= ballSpeed (ball (beforeScore HEIGHT dt s)) /\
     (- 50 <= Ball.x (ball (beforeScore HEIGHT dt s)) <= WIDTH + 50 ->
      ballSpeed (ball s) <= ballSpeed (ball (update WIDTH HEIGHT dt rnd s)))).
Proof.
  split; [|split].
  - intros Hh b'. subst b'. unfold collidePlayer. rewrite Hh.
    pose proof (bouncePlayer_speed s) as Hs. split; [exact Hs|].
    unfold ballSpeed at 1 in Hs. rewrite <- Hs. unfold Rsqr.
    now rewrite hypot_sqr.
  - intros Hh b'. subst b'. unfold collideCpu. rewrite Hh.
    pose proof (bounceCpu_speed s) as Hs. split; [exact Hs|].
    unfold ballSpeed at 1 in Hs. rewrite <- Hs. unfold Rsqr.
    now rewrite hypot_sqr.
  - intros dt rnd. split; [apply beforeScore_speed_le|].
    intros Hx. unfold update, scoreConditions.
    rewrite (proj2 (Rlt_b_false _ _)) by lra.
    rewrite (proj2 (Rlt_b_false _ _)) by lra.
    apply beforeScore_speed_le.
Qed.

Lemma bounce_angle_range rel :
  - 1 <= rel <= 1 ->
  - (PI / 2) < rel * MAX_BOUNCE_ANGLE < PI / 2 /\
  Rabs (rel * MAX_BOUNCE_ANGLE) <= degrees 75.
Proof.
  intros H. pose proof PI_RGT_0 as Hpi. unfold MAX_BOUNCE_ANGLE, degrees.
  split; [nra|]. apply Rabs_le. nra.
Qed.

Lemma bouncePlayer_angle s :
  - 1 <= relativeY (ball s) (player s) <= 1 ->
  let b' := ball (bouncePlayer s) in
  angle_from_horizontal (Ball.vx b') (Ball.vy b') =
  relativeY (ball s) (player s) * MAX_BOUNCE_ANGLE.
Proof.
  intros H. pose proof (bounce_speed_pos (ball s)) as Hp.
  destruct (bounce_angle_range _ H) as [Ha _].
  unfold bouncePlayer, ballSpeed in *; simpl.
  rewrite angle_abs_l. now apply angle_polar.
Qed.

Lemma bounceCpu_angle s :
  - 1 <= relativeY (ball s) (cpu s) <= 1 ->
  let b' := ball (bounceCpu s) in
  angle_from_horizontal (Ball.vx b') (Ball.vy b') =
  relativeY (ball s) (cpu s) * MAX_BOUNCE_ANGLE.
Proof.
  intros H. pose proof (bounce_speed_pos (ball s)) as Hp.
  destruct (bounce_angle_range _ H) as [Ha _].
  unfold bounceCpu, ballSpeed in *; simpl.
  rewrite angle_opp_l, angle_abs_l. now apply angle_polar.
Qed.

(** The velocity after a bounce is not vertical. *)
Lemma bouncePlayer_vx_nonzero s :
  - 1 <= relativeY (ball s) (player s) <= 1 ->
  0 < Rabs (Ball.vx (ball (bouncePlayer s))).
Proof.
  intros H. pose proof (bounce_speed_pos (ball s)) as Hp.
  destruct (bounce_angle_range _ H) as [Ha _].
  assert (Hc : 0 < cos (relativeY (ball s) (player s) * MAX_BOUNCE_ANGLE))
    by (apply cos_gt_0; lra).
  unfold bouncePlayer, ballSpeed in *; simpl.
  rewrite Rabs_Rabsolu, Rabs_pos_eq; nra.
Qed.

Lemma bounceCpu_vx_nonzero s :
  - 1 <= relativeY (ball s) (cpu s) <= 1 ->
  0 < Rabs (Ball.vx (ball (bounceCpu s))).
Proof.
  intros H. pose proof (bounce_speed_pos (ball s)) as Hp.
  destruct (bounce_angle_range _ H) as [Ha _].
  assert (Hc : 0 < cos (relativeY (ball s) (cpu s) * MAX_BOUNCE_ANGLE))
    by (apply cos_gt_0; lra).
  unfold bounceCpu, ballSpeed in *; simpl.
  rewrite Rabs_Ropp, Rabs_Rabsolu, Rabs_pos_eq; nra.
Qed.

(** C6: when a bounce off either paddle happens with relativeY in [-1, 1],
    the outgoing velocity is not vertical (|vx| > 0) and its angle from the
    horizontal, atan2(vy, |vx|), is relativeY * MAX_BOUNCE_ANGLE and so at
    most 75 degrees (5 PI / 12) in magnitude. *)
Theorem bounce_angle_bound s :
  (hitsPlayer s = true ->
   - 1 <= relativeY (ball s) (player s) <= 1 ->
   let b' := ball (collidePlayer s) in
   Rabs (angle_from_horizontal (Ball.vx b') (Ball.vy b')) <= degrees 75 /\
   Rabs (angle_from_horizontal (Ball.vx b') (Ball.vy b')) <= 5 * PI / 12 /\
   0 < Rabs (Ball.vx b') /\
   angle_from_horizontal (Ball.vx b') (Ball.vy b')
     = relativeY (ball s) (player s) * MAX_BOUNCE_ANGLE) /\
  (hitsCpu s = true ->
   - 1 <= relativeY (ball s) (cpu s) <= 1 ->
   let b' := ball (collideCpu s) in
   Rabs (angle_from_horizontal (Ball.vx b') (Ball.vy b')) <= degrees 75 /\
   Rabs (angle_from_horizontal (Ball.vx b') (Ball.vy b')) <= 5 * PI / 12 /\
   0 < Rabs (Ball.vx b') /\
   angle_from_horizontal (Ball.vx b') (Ball.vy b')
     = relativeY (ball s) (cpu s) * MAX_BOUNCE_ANGLE).
Proof.
  assert (Hdeg : degrees 75 = 5 * PI / 12) by (unfold degrees; field).
  split; intros Hh Hrel b'; subst b'.
  - unfold collidePlayer. rewrite Hh.
    pose proof (bouncePlayer_vx_nonzero s Hrel) as Hnz.
    rewrite bouncePlayer_angle by exact Hrel.
    destruct (bounce_angle_range _ Hrel) as [_ Hb]. rewrite <- Hdeg.
    split; [exact Hb|]. split; [exact Hb|]. split; [exact Hnz | reflexivity].
  - unfold collideCpu. rewrite Hh.
    pose proof (bounceCpu_vx_nonzero s Hrel) as Hnz.
    rewrite bounceCpu_angle by exact Hrel.
    destruct (bounce_angle_range _ Hrel) as [_ Hb]. rewrite <- Hdeg.
    split; [exact Hb|]. split; [exact Hb|]. split; [exact Hnz | reflexivity].
Qed.

(** *** When the paddle collisions fire *)

Lemma hitsPlayer_true s :
  hitsPlayer s = true <->
  Paddle.x (player s) <= Ball.x (ball s) - Ball.r (ball s)
    <= Paddle.x (player s) + Paddle.width (player s) /\
  Paddle.y (player s) <= Ball.y (ball s) + Ball.r (ball s) /\
  Ball.y (ball s) - Ball.r (ball s) <= Paddle.y (player s) + Paddle.height (player s).
Proof.
  unfold hitsPlayer; cbv zeta.
  rewrite !andb_true_iff, !Rle_b_true. tauto.
Qed.

Lemma hitsCpu_true s :
  hitsCpu s = true <->
  Paddle.x (cpu s) <= Ball.x (ball s) + Ball.r (ball s)
    <= Paddle.x (cpu s) + Paddle.width (cpu s) /\
  Paddle.y (cpu s) <= Ball.y (ball s) + Ball.r (ball s) /\
  Ball.y (ball s) - Ball.r (ball s) <= Paddle.y (cpu s) + Paddle.height (cpu s).
Proof.
  unfold hitsCpu; cbv zeta.
  rewrite !andb_true_iff, !Rle_b_true. tauto.
Qed.

Lemma hitsPlayer_outside s :
  Ball.x (ball s) - Ball.r (ball s) < Paddle.x (player s) \/
  Paddle.x (player s) + Paddle.width (player s) < Ball.x (ball s) - Ball.r (ball s) ->
  hitsPlayer s = false.
Proof.
  intros H. destruct (hitsPlayer s) eqn:E; [|reflexivity].
  apply hitsPlayer_true in E. lra.
Qed.

Lemma hitsCpu_outside s :
  Ball.x (ball s) + Ball.r (ball s) < Paddle.x (cpu s) \/
  Paddle.x (cpu s) + Paddle.width (cpu s) < Ball.x (ball s) + Ball.r (ball s) ->
  hitsCpu s = false.
Proof.
  intros H. destruct (hitsCpu s) eqn:E; [|reflexivity].
  apply hitsCpu_true in E. lra.
Qed.

Lemma beforePaddles_facts dt s :
  let s1 := beforePaddles HEIGHT dt s in
  Ball.x (ball s1) = Ball.x (ball s) + Ball.vx (ball s) * dt * 10 /\
  Ball.vx (ball s1) = Ball.vx (ball s) /\
  Ball.r (ball s1) = Ball.r (ball s) /\
  Paddle.x (player s1) = Paddle.x (player s) /\
  Paddle.width (player s1) = Paddle.width (player s) /\
  Paddle.x (cpu s1) = Paddle.x (cpu s) /\
  Paddle.width (cpu s1) = Paddle.width (cpu s) /\
  score s1 = score s.
Proof.
  unfold beforePaddles; cbv zeta.
  rewrite collideWalls_ball_x, collideWalls_ball_vx, collideWalls_ball_r,
    collideWalls_player, collideWalls_cpu, collideWalls_score.
  destruct (playerKeyboard_player_fixed dt s) as (Hx & Hw & _).
  repeat split; assumption.
Qed.

(** A tick in which the moved ball is outside the x-span of both paddles'
    collision checks: no bounce. *)
Lemma no_bounce dt s :
  let b := ball s in
  let x' := Ball.x b + Ball.vx b * dt * 10 in
  (x' - Ball.r b < Paddle.x (player s) \/
   Paddle.x (player s) + Paddle.width (player s) < x' - Ball.r b) ->
  (x' + Ball.r b < Paddle.x (cpu s) \/
   Paddle.x (cpu s) + Paddle.width (cpu s) < x' + Ball.r b) ->
  let s1 := beforePaddles HEIGHT dt s in
  hitsPlayer s1 = false /\ hitsCpu s1 = false /\ beforeScore HEIGHT dt s = s1 /\
  Ball.x (ball s1) = x'.
Proof.
  intros b x' Hp Hc s1.
  destruct (beforePaddles_facts dt s) as (Ex & _ & Er & Epx & Epw & Ecx & Ecw & _).
  fold s1 in Ex, Er, Epx, Epw, Ecx, Ecw. fold b x' in Ex, Er.
  assert (H1 : hitsPlayer s1 = false).
  { apply hitsPlayer_outside. rewrite Ex, Er, Epx, Epw. exact Hp. }
  assert (H2 : hitsCpu s1 = false).
  { apply hitsCpu_outside. rewrite Ex, Er, Ecx, Ecw. exact Hc. }
  repeat split; try assumption.
  unfold beforeScore. fold s1. unfold collidePlayer. rewrite H1.
  unfold collideCpu. now rewrite H2.
Qed.

(** If moreover the moved ball is within the scoring margins, the ball ends
    where the integration put it, and there is no score. *)
Lemma free_flight dt rnd s :
  let b := ball s in
  let x' := Ball.x b + Ball.vx b * dt * 10 in
  (x' - Ball.r b < Paddle.x (player s) \/
   Paddle.x (player s) + Paddle.width (player s) < x' - Ball.r b) ->
  (x' + Ball.r b < Paddle.x (cpu s) \/
   Paddle.x (cpu s) + Paddle.width (cpu s) < x' + Ball.r b) ->
  - 50 <= x' <= WIDTH + 50 ->
  let s1 := beforePaddles HEIGHT dt s in
  let s' := update WIDTH HEIGHT dt rnd s in
  hitsPlayer s1 = false /\ hitsCpu s1 = false /\ s' = s1 /\
  Ball.x (ball s') = x' /\ Ball.vx (ball s') = Ball.vx b /\ score s' = score s.
Proof.
  intros b x' Hp Hc Hx s1 s'.
  destruct (beforePaddles_facts dt s) as (_ & Evx & _ & _ & _ & _ & _ & Esc).
  destruct (no_bounce dt s Hp Hc) as (H1 & H2 & Hb & Ex).
  fold s1 in Evx, Esc, H1, H2, Hb, Ex. fold b x' in Evx, Ex.
  assert (H3 : s' = s1).
  { unfold s', update. rewrite Hb. unfold scoreConditions. rewrite Ex.
    rewrite (proj2 (Rlt_b_false _ _)) by lra.
    rewrite (proj2 (Rlt_b_false _ _)) by lra. reflexivity. }
  rewrite H3. repeat split; assumption.
Qed.

(** A ball that the integration puts on or above the top wall is put back on
    the wall with its vertical velocity negated. *)
Lemma beforePaddles_top dt s :
  let b := ball s in
  Ball.y b + Ball.vy b * dt * 10 - Ball.r b <= 0 ->
  Ball.y (ball (beforePaddles HEIGHT dt s)) = Ball.r b /\
  Ball.vy (ball (beforePaddles HEIGHT dt s)) = - Ball.vy b.
Proof.
  intros b Hy. unfold beforePaddles, collideWalls; cbv zeta.
  change (ball (moveBall dt (cpuAI HEIGHT dt (playerKeyboard HEIGHT dt s))))
    with (Ball.mk (Ball.x b + Ball.vx b * dt * 10) (Ball.y b + Ball.vy b * dt * 10)
                  (Ball.r b) (Ball.speed b) (Ball.vx b) (Ball.vy b)).
  cbn [Ball.y Ball.r].
  rewrite (proj2 (Rle_b_true _ _) Hy). split; reflexivity.
Qed.

(** C10: the player paddle's collision fires only when the ball's leading
    edge, x - r, lies within the paddle's x-span after the ball has moved.
    So when one tick takes the leading edge from in front of the paddle to
    behind it (and the ball is still within the scoring margin), there is no
    bounce, whatever the paddle's height: the ball ends the tick behind the
    paddle, at the position the integration gives, with its horizontal
    velocity unchanged and still to the left, and no score yet. *)
Theorem tunnelling dt rnd s :
  let b := ball s in
  let x' := Ball.x b + Ball.vx b * dt * 10 in
  fixed_fields WIDTH s -> 50 <= WIDTH -> 0 <= dt ->
  PADDING + PADDLE_WIDTH < Ball.x b - Ball.r b ->
  x' - Ball.r b < PADDING ->
  - 50 <= x' ->
  let s' := update WIDTH HEIGHT dt rnd s in
  (forall s0, hitsPlayer s0 = true ->
     Paddle.x (player s0) <= Ball.x (ball s0) - Ball.r (ball s0)
       <= Paddle.x (player s0) + Paddle.width (player s0)) /\
  hitsPlayer (beforePaddles HEIGHT dt s) = false /\
  Ball.x (ball s') = x' /\
  Ball.x (ball s') - Ball.r (ball s') < Paddle.x (player s') /\
  Ball.vx (ball s') = Ball.vx b /\ Ball.vx (ball s') < 0 /\
  score s' = score s.
Proof.
  intros b x' Hf HW Hdt Hfront Hbehind Hx s'.
  pose proof (update_fixed_fields dt rnd s Hf) as Hf'. fold s' in Hf'.
  destruct Hf as (Hpx & Hpw & _ & _ & Hcx & Hcw & _ & _ & Hr).
  destruct Hf' as (Hpx' & _ & _ & _ & _ & _ & _ & _ & Hr').
  fold b in Hr. unfold PADDING, PADDLE_WIDTH in *.
  rewrite Hr in Hfront, Hbehind.
  destruct (free_flight dt rnd s) as (H1 & _ & _ & Ex & Evx & Esc).
  { fold b x'. rewrite Hpx, Hr. left. lra. }
  { fold b x'. rewrite Hcx, Hr. left. lra. }
  { fold b x'. lra. }
  fold s' b x' in Ex, Evx, Esc.
  split; [intros s0 H0; apply hitsPlayer_true in H0; tauto|].
  split; [exact H1|]. split; [exact Ex|].
  split; [rewrite Ex, Hr', Hpx'; lra|].
  split; [exact Evx|]. split; [|exact Esc].
  rewrite Evx. subst x'. nra.
Qed.

(** *** The elapsed time *)

Lemma playerKeyboard_y dt s :
  Paddle.y (player (playerKeyboard HEIGHT dt s)) =
  clamp (Paddle.y (player s) + keyVelocity s * dt) 0 (HEIGHT - Paddle.height (player s)).
Proof.
  unfold playerKeyboard, keyVelocity; cbv zeta.
  destruct (KeyState.ArrowUp (keyState s)); [|destruct (KeyState.ArrowDown (keyState s))];
    reflexivity.
Qed.

(** C3, as the code has it: [update] does not clamp the elapsed time; it
    integrates with [dt] as given, negative or not.  The player paddle goes
    to clamp(y + dy * dt, 0, HEIGHT - PADDLE_HEIGHT), and a ball that the
    integration leaves clear of both paddles ends the tick at
    x + vx * dt * 10: with dt < 0 it moves backward, against its velocity.
    Both paddles stay within the field whatever [dt] is. *)
Theorem elapsed_not_clamped dt rnd s :
  let b := ball s in
  let x' := Ball.x b + Ball.vx b * dt * 10 in
  fixed_fields WIDTH s -> PADDLE_HEIGHT <= HEIGHT ->
  PADDING + PADDLE_WIDTH + Ball.r b < x' < WIDTH - PADDING - PADDLE_WIDTH - Ball.r b ->
  let s' := update WIDTH HEIGHT dt rnd s in
  Ball.x (ball s') = x' /\
  (dt < 0 -> 0 < Ball.vx b -> Ball.x (ball s') < Ball.x b) /\
  (dt < 0 -> Ball.vx b < 0 -> Ball.x b < Ball.x (ball s')) /\
  Paddle.y (player s') =
    clamp (Paddle.y (player s) + keyVelocity s * dt) 0 (HEIGHT - PADDLE_HEIGHT) /\
  0 <= Paddle.y (player s') <= HEIGHT - PADDLE_HEIGHT /\
  0 <= Paddle.y (cpu s') <= HEIGHT - PADDLE_HEIGHT.
Proof.
  intros b x' Hf HH Hx s'.
  destruct Hf as (Hpx & Hpw & Hph & _ & Hcx & Hcw & Hch & _ & Hr).
  fold b in Hr. unfold PADDING, PADDLE_WIDTH in *. rewrite Hr in Hx.
  destruct (free_flight dt rnd s) as (_ & _ & _ & Ex & _ & _).
  { fold b x'. rewrite Hpx, Hpw, Hr. right. lra. }
  { fold b x'. rewrite Hcx, Hr. left. lra. }
  { fold b x'. lra. }
  fold s' b x' in Ex.
  assert (Hy : Paddle.y (player s') =
               clamp (Paddle.y (player s) + keyVelocity s * dt) 0 (HEIGHT - PADDLE_HEIGHT)).
  { unfold s'. rewrite update_player, playerKeyboard_y. now rewrite Hph. }
  split; [exact Ex|]. split; [|split; [|split; [exact Hy|split]]].
  - intros Hdt Hv. rewrite Ex. subst x'. nra.
  - intros Hdt Hv. rewrite Ex. subst x'. nra.
  - rewrite Hy. apply clamp_bounds. lra.
  - unfold s'. rewrite update_cpu.
    pose proof (cpuAI_in_field dt s) as Hc. unfold in_field in Hc.
    change (Paddle.height (cpu (cpuAI HEIGHT dt s))) with (Paddle.height (cpu s)) in Hc.
    rewrite Hch in Hc. apply Hc. lra.
Qed.

Lemma playerKeyboard_zero s :
  in_field HEIGHT (player s) ->
  playerKeyboard HEIGHT 0 s = set_player s (Paddle.set_dy (player s) (keyVelocity s)).
Proof.
  intros Hin. unfold in_field in Hin.
  unfold playerKeyboard, keyVelocity; cbv zeta.
  destruct (KeyState.ArrowUp (keyState s)); [|destruct (KeyState.ArrowDown (keyState s))];
    unfold Paddle.set_y, Paddle.set_dy; simpl;
    rewrite Rmult_0_r, Rplus_0_r, clamp_inside by lra; reflexivity.
Qed.

Lemma cpuAI_zero s : in_field HEIGHT (cpu s) -> cpuAI HEIGHT 0 s = s.
Proof.
  intros Hin. unfold in_field in Hin. unfold cpuAI; cbv zeta.
  set (delta := _ - Paddle.y (cpu s)).
  replace (Paddle.speed (cpu s) * 0 * 10) with 0 by ring.
  rewrite clamp_zero_step. unfold Paddle.set_y; simpl.
  rewrite Rplus_0_r, clamp_inside by lra.
  destruct s as [p c b sc pa ma ks]; destruct c; reflexivity.
Qed.

Lemma moveBall_zero s : moveBall 0 s = s.
Proof.
  unfold moveBall; cbv zeta. unfold Ball.set_x, Ball.set_y; simpl.
  replace (Ball.x (ball s) + Ball.vx (ball s) * 0 * 10) with (Ball.x (ball s)) by ring.
  replace (Ball.y (ball s) + Ball.vy (ball s) * 0 * 10) with (Ball.y (ball s)) by ring.
  destruct s as [p c b sc pa ma ks]; destruct b; reflexivity.
Qed.

Lemma collideWalls_inside s :
  Ball.r (ball s) < Ball.y (ball s) -> Ball.y (ball s) + Ball.r (ball s) < HEIGHT ->
  collideWalls HEIGHT s = s.
Proof.
  intros H1 H2. unfold collideWalls; cbv zeta.
  rewrite (proj2 (Rle_b_false _ _)) by lra.
  rewrite (proj2 (Rle_b_false _ _)) by lra. reflexivity.
Qed.

(** C4, as the code has it: [update] with dt = 0 leaves every position, the
    ball's velocity and the scores as they are (of the whole state it only
    sets [player.dy] again from the keys) when the paddles are within the
    field, the ball is strictly between the top and bottom walls, neither
    paddle's collision condition holds, and the ball is within the scoring
    margins. *)
Theorem zero_elapsed_identity rnd s :
  in_field HEIGHT (player s) -> in_field HEIGHT (cpu s) ->
  Ball.r (ball s) < Ball.y (ball s) -> Ball.y (ball s) + Ball.r (ball s) < HEIGHT ->
  hitsPlayer s = false -> hitsCpu s = false ->
  - 50 <= Ball.x (ball s) <= WIDTH + 50 ->
  let s' := update WIDTH HEIGHT 0 rnd s in
  s' = set_player s (Paddle.set_dy (player s) (keyVelocity s)) /\
  ball s' = ball s /\ score s' = score s /\ cpu s' = cpu s /\
  Paddle.y (player s') = Paddle.y (player s).
Proof.
  intros Hp Hc Hy1 Hy2 H1 H2 Hx s'.
  assert (E : s' = set_player s (Paddle.set_dy (player s) (keyVelocity s))).
  { unfold s', update, beforeScore, beforePaddles.
    rewrite playerKeyboard_zero by exact Hp.
    rewrite cpuAI_zero by exact Hc.
    rewrite moveBall_zero.
    rewrite collideWalls_inside by assumption.
    unfold collidePlayer.
    change (hitsPlayer (set_player s (Paddle.set_dy (player s) (keyVelocity s))))
      with (hitsPlayer s).
    rewrite H1. unfold collideCpu.
    change (hitsCpu (set_player s (Paddle.set_dy (player s) (keyVelocity s))))
      with (hitsCpu s).
    rewrite H2. unfold scoreConditions.
    change (ball (set_player s (Paddle.set_dy (player s) (keyVelocity s))))
      with (ball s).
    rewrite (proj2 (Rlt_b_false _ _)) by lra.
    rewrite (proj2 (Rlt_b_false _ _)) by lra. reflexivity. }
  rewrite E. repeat split.
Qed.

End Properties.

(** ** The properties on the example states *)

Lemma state0_fixed_fields W H b : fixed_fields W (set_ball (state0 W H) b) <-> Ball.r b = 8.
Proof.
  unfold fixed_fields; simpl. split; [intros H0; apply H0|].
  intros ->. repeat split.
Qed.

Lemma serve_straight W H d rnd2 s :
  let b := ball (resetBall W H d (1 / 2) rnd2 s) in
  Ball.vy b = 0 /\ (Ball.vx b = 6 \/ Ball.vx b = - 6) /\
  (d = Some dir_left -> Ball.vx b = - 6) /\ (d = Some dir_right -> Ball.vx b = 6).
Proof.
  destruct (resetBall_ball W H d (1 / 2) rnd2 s) as (_ & _ & _ & Hvy & Hvx & Hl & Hr).
  replace (1 / 2 * (PI / 3) - PI / 6) with 0 in * by lra.
  rewrite sin_0 in Hvy. rewrite cos_0 in *.
  cbv zeta. split; [lra|]. split; [lra|]. split; intros Hd.
  - rewrite (Hl Hd). lra.
  - rewrite (Hr Hd). lra.
Qed.

Lemma start_state_reachable : reachable 800 600 start_state.
Proof. apply reach_init; lra. Qed.

(** C7 on the state in which the script starts. *)
Lemma paddles_stay_in_field_witness :
  PADDLE_HEIGHT <= 600 /\ reachable 800 600 start_state /\
  0 <= Paddle.y (player (update 800 600 1 0 start_state)) <= 600 - PADDLE_HEIGHT /\
  0 <= Paddle.y (cpu (update 800 600 1 0 start_state)) <= 600 - PADDLE_HEIGHT.
Proof.
  assert (HH : PADDLE_HEIGHT <= 600) by (unfold PADDLE_HEIGHT; lra).
  split; [exact HH|]. split; [exact start_state_reachable|].
  exact (proj1 (proj2 (paddles_stay_in_field 800 600 start_state HH start_state_reachable)) 1 0).
Defined.

(** C9 on a serve to the left, and on the steepest serve of the start of
    the game (direction [null], [Math.random()] = 0): 30 degrees upward, not
    vertical. *)
Lemma serve_velocity_witness :
  (0 <= 1 / 2 < 1 /\
   ballSpeed (ball (resetBall 800 600 (Some dir_left) (1 / 2) 0 (state0 800 600))) = 6 /\
   Ball.vx (ball (resetBall 800 600 (Some dir_left) (1 / 2) 0 (state0 800 600))) < 0) /\
  (0 <= 0 < 1 /\
   ballSpeed (ball wall_serve_state) = 6 /\
   Ball.vx (ball wall_serve_state) <> 0 /\
   angle_from_horizontal (Ball.vx (ball wall_serve_state)) (Ball.vy (ball wall_serve_state))
   = - degrees 30).
Proof.
  split.
  - assert (Hr : 0 <= 1 / 2 < 1) by lra.
    split; [exact Hr|].
    destruct (serve_velocity 800 600 (Some dir_left) (1 / 2) 0 (state0 800 600) Hr)
      as (_ & Hs & _ & Hl & _).
    split; [exact Hs | exact (Hl eq_refl)].
  - assert (Hr : 0 <= 0 < 1) by lra.
    split; [exact Hr|].
    destruct (serve_velocity 2000 200 None 0 0 (state0 2000 200) Hr)
      as (_ & Hs & _ & _ & _ & Hnz & _ & Ha).
    split; [exact Hs|]. split; [exact Hnz|].
    unfold wall_serve_state. rewrite Ha. unfold degrees. lra.
Defined.

(** The ball of [exit_left_state] after 10 time units: out on the left. *)
Lemma exit_left_before_score :
  Ball.x (ball (beforeScore 600 10 exit_left_state)) = - 600.
Proof.
  destruct (no_bounce 600 10 exit_left_state) as (_ & _ & -> & ->);
    unfold exit_left_state; simpl; unfold PADDING, PADDLE_WIDTH; lra.
Qed.

Lemma exit_right_before_score :
  Ball.x (ball (beforeScore 600 10 exit_right_state)) = 1400.
Proof.
  destruct (no_bounce 600 10 exit_right_state) as (_ & _ & -> & ->);
    unfold exit_right_state; simpl; unfold PADDING, PADDLE_WIDTH; lra.
Qed.

(** C8 on a ball that leaves the field on the left. *)
Lemma score_conditions_witness :
  0 <= 800 /\
  Ball.x (ball (beforeScore 600 10 exit_left_state)) < - 50 /\
  Score.cpu (score (update 800 600 10 (1 / 2) exit_left_state)) = 1%nat /\
  Score.player (score (update 800 600 10 (1 / 2) exit_left_state)) = 0%nat /\
  Ball.x (ball (update 800 600 10 (1 / 2) exit_left_state)) = 800 / 2 /\
  Ball.y (ball (update 800 600 10 (1 / 2) exit_left_state)) = 600 / 2.
Proof.
  assert (HW : 0 <= 800) by lra.
  assert (Hx : Ball.x (ball (beforeScore 600 10 exit_left_state)) < - 50)
    by (rewrite exit_left_before_score; lra).
  split; [exact HW|]. split; [exact Hx|].
  exact (proj1 (score_conditions 800 600 10 (1 / 2) exit_left_state HW) Hx).
Defined.

(** C1, as the code has it, on a ball that leaves the field on the left: the
    serve goes to the right. *)
Lemma serve_toward_scorer_witness :
  0 <= 800 /\ 0 <= 1 / 2 < 1 /\
  Ball.x (ball (beforeScore 600 10 exit_left_state)) < - 50 /\
  0 < Ball.vx (ball (update 800 600 10 (1 / 2) exit_left_state)).
Proof.
  assert (HW : 0 <= 800) by lra.
  assert (Hr : 0 <= 1 / 2 < 1) by lra.
  assert (Hx : Ball.x (ball (beforeScore 600 10 exit_left_state)) < - 50)
    by (rewrite exit_left_before_score; lra).
  split; [exact HW|]. split; [exact Hr|]. split; [exact Hx|].
  exact (proj2 (proj2 (proj2
    (proj1 (serve_toward_scorer 800 600 10 (1 / 2) exit_left_state HW Hr) Hx)))).
Defined.

(** C1 as the specification states it fails: the ball leaves the field on
    the left, the CPU scores, and the serve does not go toward the player
    (vx is 6, not negative); it leaves on the right, the player scores, and
    the serve does not go toward the CPU (vx is - 6). *)
Lemma serve_toward_loser_counterexample :
  (Score.cpu (score (update 800 600 10 (1 / 2) exit_left_state)) = 1%nat /\
   Ball.vx (ball (update 800 600 10 (1 / 2) exit_left_state)) = 6 /\
   ~ Ball.vx (ball (update 800 600 10 (1 / 2) exit_left_state)) < 0) /\
  (Score.player (score (update 800 600 10 (1 / 2) exit_right_state)) = 1%nat /\
   Ball.vx (ball (update 800 600 10 (1 / 2) exit_right_state)) = - 6 /\
   ~ 0 < Ball.vx (ball (update 800 600 10 (1 / 2) exit_right_state))).
Proof.
  split.
  - assert (Hv : Ball.vx (ball (update 800 600 10 (1 / 2) exit_left_state)) = 6).
    { unfold update, scoreConditions. rewrite exit_left_before_score.
      rewrite (proj2 (Rlt_b_true _ _)) by lra. cbv zeta.
      apply (serve_straight 800 600 (Some dir_right)). reflexivity. }
    split; [|split; [exact Hv | rewrite Hv; lra]].
    unfold update, scoreConditions. rewrite exit_left_before_score.
    rewrite (proj2 (Rlt_b_true _ _)) by lra. simpl.
    rewrite (beforeScore_score 600 10 exit_left_state). reflexivity.
  - assert (Hv : Ball.vx (ball (update 800 600 10 (1 / 2) exit_right_state)) = - 6).
    { unfold update, scoreConditions. rewrite exit_right_before_score.
      rewrite (proj2 (Rlt_b_false _ _)) by lra.
      rewrite (proj2 (Rlt_b_true _ _)) by lra. cbv zeta.
      apply (serve_straight 800 600 (Some dir_left)). reflexivity. }
    split; [|split; [exact Hv | rewrite Hv; lra]].
    unfold update, scoreConditions. rewrite exit_right_before_score.
    rewrite (proj2 (Rlt_b_false _ _)) by lra.
    rewrite (proj2 (Rlt_b_true _ _)) by lra. simpl.
    rewrite (beforeScore_score 600 10 exit_right_state). reflexivity.
Qed.

Lemma hit_player_state_hits : hitsPlayer hit_player_state = true.
Proof.
  apply hitsPlayer_true. unfold hit_player_state; simpl.
  unfold PADDING, PADDLE_WIDTH, PADDLE_HEIGHT. lra.
Qed.

Lemma hit_cpu_state_hits : hitsCpu hit_cpu_state = true.
Proof.
  apply hitsCpu_true. unfold hit_cpu_state; simpl.
  unfold PADDING, PADDLE_WIDTH, PADDLE_HEIGHT. lra.
Qed.

(** C5 on a ball in contact with the player paddle, and with the CPU paddle. *)
Lemma paddle_bounce_speed_witness :
  (hitsPlayer hit_player_state = true /\
   ballSpeed (ball (collidePlayer hit_player_state)) =
   ballSpeed (ball hit_player_state) + 0.2) /\
  (hitsCpu hit_cpu_state = true /\
   ballSpeed (ball (collideCpu hit_cpu_state)) =
   ballSpeed (ball hit_cpu_state) + 0.2).
Proof.
  split.
  - split; [exact hit_player_state_hits|].
    exact (proj1 (proj1 (paddle_bounce_speed 800 600 hit_player_state)
                        hit_player_state_hits)).
  - split; [exact hit_cpu_state_hits|].
    exact (proj1 (proj1 (proj2 (paddle_bounce_speed 800 600 hit_cpu_state))
                        hit_cpu_state_hits)).
Defined.

(** C6 on a ball level with the lower end of the player paddle, which
    leaves at 75 degrees downward, and on one level with the upper end of
    the CPU paddle, which leaves at 75 degrees upward; neither vertically. *)
Lemma bounce_angle_bound_witness :
  (hitsPlayer edge_hit_player_state = true /\
   - 1 <= relativeY (ball edge_hit_player_state) (player edge_hit_player_state) <= 1 /\
   Rabs (angle_from_horizontal (Ball.vx (ball (collidePlayer edge_hit_player_state)))
                               (Ball.vy (ball (collidePlayer edge_hit_player_state))))
   <= degrees 75 /\
   0 < Rabs (Ball.vx (ball (collidePlayer edge_hit_player_state))) /\
   angle_from_horizontal (Ball.vx (ball (collidePlayer edge_hit_player_state)))
                         (Ball.vy (ball (collidePlayer edge_hit_player_state)))
   = degrees 75) /\
  (hitsCpu edge_hit_cpu_state = true /\
   - 1 <= relativeY (ball edge_hit_cpu_state) (cpu edge_hit_cpu_state) <= 1 /\
   Rabs (angle_from_horizontal (Ball.vx (ball (collideCpu edge_hit_cpu_state)))
                               (Ball.vy (ball (collideCpu edge_hit_cpu_state))))
   <= degrees 75 /\
   0 < Rabs (Ball.vx (ball (collideCpu edge_hit_cpu_state))) /\
   angle_from_horizontal (Ball.vx (ball (collideCpu edge_hit_cpu_state)))
                         (Ball.vy (ball (collideCpu edge_hit_cpu_state)))
   = - degrees 75).
Proof.
  split.
  - assert (Hh : hitsPlayer edge_hit_player_state = true).
    { apply hitsPlayer_true. unfold edge_hit_player_state; simpl.
      unfold PADDING, PADDLE_WIDTH, PADDLE_HEIGHT. lra. }
    assert (Er : relativeY (ball edge_hit_player_state) (player edge_hit_player_state) = 1).
    { unfold relativeY, edge_hit_player_state; simpl. unfold PADDLE_HEIGHT. field. }
    assert (Hrel : - 1 <= relativeY (ball edge_hit_player_state)
                                    (player edge_hit_player_state) <= 1)
      by (rewrite Er; lra).
    split; [exact Hh|]. split; [exact Hrel|].
    destruct (proj1 (bounce_angle_bound edge_hit_player_state) Hh Hrel)
      as (Hb & _ & Hnz & Ea).
    split; [exact Hb|]. split; [exact Hnz|].
    rewrite Ea, Er. unfold MAX_BOUNCE_ANGLE, degrees. field.
  - assert (Hh : hitsCpu edge_hit_cpu_state = true).
    { apply hitsCpu_true. unfold edge_hit_cpu_state; simpl.
      unfold PADDING, PADDLE_WIDTH, PADDLE_HEIGHT. lra. }
    assert (Er : relativeY (ball edge_hit_cpu_state) (cpu edge_hit_cpu_state) = - 1).
    { unfold relativeY, edge_hit_cpu_state; simpl. unfold PADDLE_HEIGHT. field. }
    assert (Hrel : - 1 <= relativeY (ball edge_hit_cpu_state)
                                    (cpu edge_hit_cpu_state) <= 1)
      by (rewrite Er; lra).
    split; [exact Hh|]. split; [exact Hrel|].
    destruct (proj2 (bounce_angle_bound edge_hit_cpu_state) Hh Hrel)
      as (Hb & _ & Hnz & Ea).
    split; [exact Hb|]. split; [exact Hnz|].
    rewrite Ea, Er. unfold MAX_BOUNCE_ANGLE, degrees. field.
Defined.

(** C10 on a ball 10 units in front of the player paddle and level with its
    middle: a tick of 1 time unit takes it 60 units to the left, through the
    paddle. *)
Lemma tunnelling_witness :
  (Paddle.y (player fast_ball_state) <= Ball.y (ball fast_ball_state)
     <= Paddle.y (player fast_ball_state) + Paddle.height (player fast_ball_state)) /\
  PADDING + PADDLE_WIDTH < Ball.x (ball fast_ball_state) - Ball.r (ball fast_ball_state) /\
  Ball.x (ball (update 800 600 1 0 fast_ball_state)) = 40 + - 6 * 1 * 10 /\
  Ball.vx (ball (update 800 600 1 0 fast_ball_state)) = - 6 /\
  score (update 800 600 1 0 fast_ball_state) = score fast_ball_state.
Proof.
  assert (Hf : fixed_fields 800 fast_ball_state)
    by (apply state0_fixed_fields; reflexivity).
  assert (HW : 50 <= 800) by lra.
  assert (Hdt : 0 <= 1) by lra.
  assert (H1 : PADDING + PADDLE_WIDTH <
               Ball.x (ball fast_ball_state) - Ball.r (ball fast_ball_state))
    by (unfold fast_ball_state; simpl; unfold PADDING, PADDLE_WIDTH; lra).
  assert (H2 : Ball.x (ball fast_ball_state) + Ball.vx (ball fast_ball_state) * 1 * 10
               - Ball.r (ball fast_ball_state) < PADDING)
    by (unfold fast_ball_state; simpl; unfold PADDING; lra).
  assert (H3 : - 50 <= Ball.x (ball fast_ball_state)
                       + Ball.vx (ball fast_ball_state) * 1 * 10)
    by (unfold fast_ball_state; simpl; lra).
  split; [unfold fast_ball_state; simpl; unfold PADDLE_HEIGHT; lra|].
  split; [exact H1|].
  destruct (tunnelling 800 600 1 0 fast_ball_state Hf HW Hdt H1 H2 H3)
    as (_ & _ & Hx & _ & Hv & _ & Hs).
  split; [exact Hx|]. split; [exact Hv | exact Hs].
Defined.

Lemma rally_state_free_flight dt :
  - 6 <= dt <= 6 ->
  Ball.x (ball (update 800 600 dt 0 rally_state)) = 400 + 6 * dt * 10.
Proof.
  intros Hdt.
  destruct (free_flight 800 600 dt 0 rally_state) as (_ & _ & _ & Ex & _);
    unfold rally_state in *; simpl in *; unfold PADDING, PADDLE_WIDTH in *;
    [right | left | | exact Ex]; lra.
Qed.

(** C3, as the code has it, on a rally with an elapsed time of - 1: the ball
    goes 60 units backward. *)
Lemma elapsed_not_clamped_witness :
  fixed_fields 800 rally_state /\ PADDLE_HEIGHT <= 600 /\
  Ball.x (ball (update 800 600 (- 1) 0 rally_state)) = 400 + 6 * - 1 * 10 /\
  Ball.x (ball (update 800 600 (- 1) 0 rally_state)) < Ball.x (ball rally_state).
Proof.
  assert (Hf : fixed_fields 800 rally_state)
    by (apply state0_fixed_fields; reflexivity).
  assert (HH : PADDLE_HEIGHT <= 600) by (unfold PADDLE_HEIGHT; lra).
  assert (Hx : PADDING + PADDLE_WIDTH + Ball.r (ball rally_state)
               < Ball.x (ball rally_state) + Ball.vx (ball rally_state) * - 1 * 10
               < 800 - PADDING - PADDLE_WIDTH - Ball.r (ball rally_state))
    by (unfold rally_state; simpl; unfold PADDING, PADDLE_WIDTH; lra).
  split; [exact Hf|]. split; [exact HH|].
  destruct (elapsed_not_clamped 800 600 (- 1) 0 rally_state Hf HH Hx)
    as (Ex & Hback & _).
  split; [exact Ex|].
  apply Hback; [lra | unfold rally_state; simpl; lra].
Defined.

(** C3 as the specification states it fails: with an elapsed time of - 1 the
    step is not the step with an elapsed time of 0, and the ball moves
    backward, from x = 400 to x = 340 while its velocity points right. *)
Lemma negative_elapsed_counterexample :
  - 1 < 0 /\
  Ball.x (ball (update 800 600 0 0 rally_state)) = 400 /\
  Ball.x (ball (update 800 600 (- 1) 0 rally_state)) = 340 /\
  0 < Ball.vx (ball rally_state) /\
  Ball.x (ball (update 800 600 (- 1) 0 rally_state)) < Ball.x (ball rally_state) /\
  update 800 600 (- 1) 0 rally_state <> update 800 600 0 0 rally_state.
Proof.
  assert (E0 : Ball.x (ball (update 800 600 0 0 rally_state)) = 400)
    by (rewrite rally_state_free_flight; lra).
  assert (E1 : Ball.x (ball (update 800 600 (- 1) 0 rally_state)) = 340)
    by (rewrite rally_state_free_flight; lra).
  split; [lra|]. split; [exact E0|]. split; [exact E1|].
  split; [unfold rally_state; simpl; lra|].
  split; [rewrite E1; unfold rally_state; simpl; lra|].
  intros Heq. rewrite Heq, E0 in E1. lra.
Qed.

Lemma rally_state_quiet :
  in_field 600 (player rally_state) /\ in_field 600 (cpu rally_state) /\
  hitsPlayer rally_state = false /\ hitsCpu rally_state = false.
Proof.
  unfold in_field. repeat split;
    try (unfold rally_state; simpl; unfold PADDLE_HEIGHT; lra).
  - apply hitsPlayer_outside. right.
    unfold rally_state; simpl; unfold PADDING, PADDLE_WIDTH; lra.
  - apply hitsCpu_outside. left.
    unfold rally_state; simpl; unfold PADDING, PADDLE_WIDTH; lra.
Qed.

(** C4, as the code has it, on a rally with the ball at the centre. *)
Lemma zero_elapsed_identity_witness :
  Ball.r (ball rally_state) < Ball.y (ball rally_state) /\
  Ball.y (ball rally_state) + Ball.r (ball rally_state) < 600 /\
  - 50 <= Ball.x (ball rally_state) <= 800 + 50 /\
  ball (update 800 600 0 0 rally_state) = ball rally_state /\
  score (update 800 600 0 0 rally_state) = score rally_state.
Proof.
  destruct rally_state_quiet as (Hp & Hc & H1 & H2).
  assert (Hy1 : Ball.r (ball rally_state) < Ball.y (ball rally_state))
    by (unfold rally_state; simpl; lra).
  assert (Hy2 : Ball.y (ball rally_state) + Ball.r (ball rally_state) < 600)
    by (unfold rally_state; simpl; lra).
  assert (Hx : - 50 <= Ball.x (ball rally_state) <= 800 + 50)
    by (unfold rally_state; simpl; lra).
  split; [exact Hy1|]. split; [exact Hy2|]. split; [exact Hx|].
  destruct (zero_elapsed_identity 800 600 0 rally_state Hp Hc Hy1 Hy2 H1 H2 Hx)
    as (_ & Hb & Hs & _).
  split; [exact Hb | exact Hs].
Defined.

Lemma wall_serve_state_reachable : reachable 2000 200 wall_serve_state.
Proof. apply reach_init; lra. Qed.

Lemma wall_rest_state_reachable : reachable 2000 200 wall_rest_state.
Proof.
  apply reach_event; [exact wall_serve_state_reachable|]. simpl. lra.
Qed.

(** The ball of [wall_serve_state]: at the centre, going up at 3 per unit
    and to the left at no more than 6. *)
Lemma wall_serve_state_ball :
  Ball.x (ball wall_serve_state) = 1000 /\ Ball.y (ball wall_serve_state) = 100 /\
  Ball.vy (ball wall_serve_state) = - 3 /\
  - 6 <= Ball.vx (ball wall_serve_state) <= 6.
Proof.
  destruct (resetBall_ball 2000 200 None 0 0 (state0 2000 200))
    as (Hx & Hy & _ & Hvy & Hvx & _).
  fold wall_serve_state in Hx, Hy, Hvy, Hvx.
  replace (0 * (PI / 3) - PI / 6) with (- (PI / 6)) in * by lra.
  rewrite sin_neg, sin_PI6 in Hvy.
  pose proof (COS_bound (- (PI / 6))) as Hc.
  repeat split; try lra; destruct Hvx as [-> | ->]; lra.
Qed.

(** The ball of [wall_rest_state]: on the top wall, going down. *)
Lemma wall_rest_state_ball :
  Ball.y (ball wall_rest_state) = 8 /\ Ball.r (ball wall_rest_state) = 8 /\
  Ball.vy (ball wall_rest_state) = 3 /\
  760 <= Ball.x (ball wall_rest_state) <= 1240 /\
  - 6 <= Ball.vx (ball wall_rest_state) <= 6.
Proof.
  destruct wall_serve_state_ball as (Hx & Hy & Hvy & Hvx).
  pose proof (reachable_fixed_fields 2000 200 _ wall_serve_state_reachable) as Hf.
  destruct Hf as (Hpx & Hpw & _ & _ & Hcx & Hcw & _ & _ & Hr).
  unfold PADDING, PADDLE_WIDTH in *.
  assert (E : wall_rest_state = update 2000 200 4 0 wall_serve_state) by reflexivity.
  destruct (free_flight 2000 200 4 0 wall_serve_state) as (_ & _ & E1 & Ex & Ev & _).
  { rewrite Hx, Hr, Hpx, Hpw. right. lra. }
  { rewrite Hx, Hr, Hcx. left. lra. }
  { rewrite Hx. lra. }
  destruct (beforePaddles_top 200 4 wall_serve_state) as (By & Bv).
  { rewrite Hy, Hvy, Hr. lra. }
  rewrite <- E in E1, Ex, Ev. rewrite <- E1 in By, Bv.
  pose proof (reachable_fixed_fields 2000 200 _ wall_rest_state_reachable) as Hf'.
  assert (Hr' : Ball.r (ball wall_rest_state) = 8) by apply Hf'.
  rewrite By, Bv, Ex, Ev, Hx, Hvy, Hr. repeat split; lra.
Qed.

(** C4 as the specification states it fails: [wall_rest_state] is a state of
    the running script in which the ball rests exactly on the top wall after
    a wall bounce, and [update] with dt = 0 negates its vertical velocity,
    from 3 to - 3. *)
Lemma zero_elapsed_counterexample :
  reachable 2000 200 wall_rest_state /\
  Ball.y (ball wall_rest_state) = Ball.r (ball wall_rest_state) /\
  Ball.vy (ball wall_rest_state) = 3 /\
  Ball.vy (ball (update 2000 200 0 0 wall_rest_state)) = - 3 /\
  update 2000 200 0 0 wall_rest_state <> wall_rest_state.
Proof.
  destruct wall_rest_state_ball as (Hy & Hr & Hvy & Hx & Hvx).
  pose proof (reachable_fixed_fields 2000 200 _ wall_rest_state_reachable) as Hf.
  destruct Hf as (Hpx & Hpw & _ & _ & Hcx & Hcw & _ & _ & _).
  unfold PADDING, PADDLE_WIDTH in *.
  assert (Hv : Ball.vy (ball (update 2000 200 0 0 wall_rest_state)) = - 3).
  { destruct (free_flight 2000 200 0 0 wall_rest_state) as (_ & _ & -> & _).
    { rewrite Hr, Hpx, Hpw. right. lra. }
    { rewrite Hr, Hcx. left. lra. }
    { lra. }
    destruct (beforePaddles_top 200 0 wall_rest_state) as (_ & ->).
    { rewrite Hy, Hvy, Hr. lra. }
    rewrite Hvy. reflexivity. }
  split; [exact wall_rest_state_reachable|].
  split; [now rewrite Hy, Hr|]. split; [exact Hvy|]. split; [exact Hv|].
  intros Heq. rewrite Heq, Hvy in Hv. lra.
Qed.

(** The player paddle after a tick with a pointer sample: the keyboard
    velocity is integrated on top of the pointer's position. *)
Lemma tick_pointer_y W H y dt rnd s :
  Paddle.y (player (tick W H (Some y) dt rnd s)) =
  clamp (clamp (y - Paddle.height (player s) / 2) 0 (H - Paddle.height (player s))
         + keyVelocity s * dt)
        0 (H - Paddle.height (player s)).
Proof. unfold tick. rewrite update_player, playerKeyboard_y. reflexivity. Qed.

(** C2 fails on the code: with Arrow Down held and a pointer sample at
    y = 300 in the same tick of 1 time unit, the pointer's target for the
    paddle is 250 (300 minus half the paddle height, within bounds), but
    [update] integrates the keyboard velocity on top of it and the paddle
    ends the tick at 256. *)
Theorem keyboard_moves_pointer_sample :
  KeyState.ArrowDown (keyState key_down_state) = true /\
  clamp (300 - PADDLE_HEIGHT / 2) 0 (600 - PADDLE_HEIGHT) = 250 /\
  Paddle.y (player (mousemove 600 300 key_down_state)) = 250 /\
  Paddle.y (player (tick 800 600 (Some 300) 1 0 key_down_state)) = 256.
Proof.
  assert (Hc : clamp (300 - PADDLE_HEIGHT / 2) 0 (600 - PADDLE_HEIGHT) = 250)
    by (unfold PADDLE_HEIGHT; rewrite clamp_inside; lra).
  split; [reflexivity|]. split; [exact Hc|]. split; [exact Hc|].
  rewrite tick_pointer_y.
  change (Paddle.height (player key_down_state)) with PADDLE_HEIGHT.
  change (keyVelocity key_down_state) with 6.
  rewrite Hc. unfold PADDLE_HEIGHT. rewrite clamp_inside; lra.
Qed.

(** ** Further properties of the program *)

Section MoreProperties.

Variables WIDTH HEIGHT : R.

(** *** [clamp] and the paddles *)

Lemma clamp_inverted (v a b : R) : b < a -> clamp v a b = a.
Proof.
  intros Hab. unfold clamp, Rmax, Rmin.
  destruct (Rle_dec b v); destruct (Rle_dec a _); lra.
Qed.

(** X1: clamping twice with the same bounds is clamping once, whatever the
    bounds are; so a value that [clamp] returned is left alone by it. *)
Theorem clamp_idempotent v a b : clamp (clamp v a b) a b = clamp v a b.
Proof.
  destruct (Rle_dec a b) as [Hab | Hab].
  - apply clamp_inside, clamp_bounds, Hab.
  - rewrite !clamp_inverted by lra. reflexivity.
Qed.

(** X2: [clamp] gives its lower bound when the bounds are inverted; so on a
    canvas lower than the paddles, every [update] puts both paddles at
    y = 0, outside [0, HEIGHT - height], and [mousemove] does the same to
    the player's. *)
Theorem short_canvas_pins_paddles dt rnd y s :
  HEIGHT < Paddle.height (player s) -> HEIGHT < Paddle.height (cpu s) ->
  Paddle.y (player (update WIDTH HEIGHT dt rnd s)) = 0 /\
  Paddle.y (cpu (update WIDTH HEIGHT dt rnd s)) = 0 /\
  Paddle.y (player (mousemove HEIGHT y s)) = 0.
Proof.
  intros Hp Hc. rewrite update_player, update_cpu, playerKeyboard_y.
  split; [apply clamp_inverted; lra|].
  split; [|unfold mousemove; simpl; apply clamp_inverted; lra].
  unfold cpuAI; simpl. apply clamp_inverted; lra.
Qed.

(** *** The ball and the walls *)

Lemma beforePaddles_ball dt s :
  let b := ball s in
  let y1 := Ball.y b + Ball.vy b * dt * 10 in
  let b1 := ball (beforePaddles HEIGHT dt s) in
  (y1 - Ball.r b <= 0 /\ Ball.y b1 = Ball.r b /\ Ball.vy b1 = - Ball.vy b) \/
  (0 < y1 - Ball.r b /\ HEIGHT <= y1 + Ball.r b /\
   Ball.y b1 = HEIGHT - Ball.r b /\ Ball.vy b1 = - Ball.vy b) \/
  (0 < y1 - Ball.r b /\ y1 + Ball.r b < HEIGHT /\
   Ball.y b1 = y1 /\ Ball.vy b1 = Ball.vy b).
Proof.
  intros b y1 b1. subst b1. unfold beforePaddles, collideWalls; cbv zeta.
  change (ball (moveBall dt (cpuAI HEIGHT dt (playerKeyboard HEIGHT dt s))))
    with (Ball.mk (Ball.x b + Ball.vx b * dt * 10) y1
                  (Ball.r b) (Ball.speed b) (Ball.vx b) (Ball.vy b)).
  cbn [Ball.y Ball.r].
  destruct (Rle_b (y1 - Ball.r b) 0) eqn:E1.
  - apply Rle_b_true in E1. left. repeat split. exact E1.
  - apply Rle_b_false in E1. right.
    destruct (Rle_b HEIGHT (y1 + Ball.r b)) eqn:E2.
    + apply Rle_b_true in E2. left. repeat split; assumption.
    + apply Rle_b_false in E2. right. repeat split; assumption.
Qed.

Lemma beforeScore_ball_y dt s :
  Ball.y (ball (beforeScore HEIGHT dt s)) = Ball.y (ball (beforePaddles HEIGHT dt s)).
Proof. unfold beforeScore. now rewrite collideCpu_ball_y, collidePlayer_ball_y. Qed.

Lemma scoreConditions_ball_y rnd s :
  let y' := Ball.y (ball (scoreConditions WIDTH HEIGHT rnd s)) in
  y' = Ball.y (ball s) \/ y' = HEIGHT / 2.
Proof.
  unfold scoreConditions.
  destruct (Rlt_b (Ball.x (ball s)) (- 50));
    [|destruct (Rlt_b (WIDTH + 50) (Ball.x (ball s)))]; simpl; auto.
Qed.

(** X3: on a canvas at least as high as the ball is wide, the ball is between
    the top and bottom walls after every [update], whatever the state before
    and the elapsed time: r <= y <= HEIGHT - r. *)
Theorem ball_between_walls dt rnd s :
  2 * Ball.r (ball s) <= HEIGHT ->
  let b' := ball (update WIDTH HEIGHT dt rnd s) in
  Ball.r b' = Ball.r (ball s) /\ Ball.r b' <= Ball.y b' <= HEIGHT - Ball.r b'.
Proof.
  intros Hr b'. subst b'. unfold update.
  rewrite scoreConditions_ball_r, beforeScore_ball_r. split; [reflexivity|].
  assert (Hm : Ball.r (ball s) <= Ball.y (ball (beforeScore HEIGHT dt s))
               <= HEIGHT - Ball.r (ball s)).
  { rewrite beforeScore_ball_y.
    destruct (beforePaddles_ball dt s) as [(_ & -> & _) | [(_ & _ & -> & _) | (H1 & H2 & -> & _)]];
      lra. }
  destruct (scoreConditions_ball_y rnd (beforeScore HEIGHT dt s)) as [-> | ->]; lra.
Qed.

(** X4: a tick with a positive elapsed time that takes a ball from within
    the field to or past the top wall, clear of both paddles, leaves it on
    the wall (y = r) with its vertical velocity negated, now pointing down
    or zero, and its horizontal motion as the integration gives it; the same
    for the bottom wall (y = HEIGHT - r, velocity pointing up or zero). *)
Theorem wall_bounce dt rnd s :
  let b := ball s in
  let x1 := Ball.x b + Ball.vx b * dt * 10 in
  let y1 := Ball.y b + Ball.vy b * dt * 10 in
  let b' := ball (update WIDTH HEIGHT dt rnd s) in
  fixed_fields WIDTH s -> 0 < dt ->
  PADDING + PADDLE_WIDTH + Ball.r b < x1 < WIDTH - PADDING - PADDLE_WIDTH - Ball.r b ->
  Ball.r b <= Ball.y b <= HEIGHT - Ball.r b ->
  (y1 - Ball.r b <= 0 ->
   Ball.y b' = Ball.r b /\ Ball.vy b' = - Ball.vy b /\ 0 <= Ball.vy b' /\
   Ball.x b' = x1 /\ Ball.vx b' = Ball.vx b) /\
  (0 < y1 - Ball.r b -> HEIGHT <= y1 + Ball.r b ->
   Ball.y b' = HEIGHT - Ball.r b /\ Ball.vy b' = - Ball.vy b /\ Ball.vy b' <= 0 /\
   Ball.x b' = x1 /\ Ball.vx b' = Ball.vx b).
Proof.
  intros b x1 y1 b' Hf Hdt Hx Hy.
  destruct Hf as (Hpx & Hpw & _ & _ & Hcx & Hcw & _ & _ & Hr).
  fold b in Hr. unfold PADDING, PADDLE_WIDTH in *.
  destruct (free_flight WIDTH HEIGHT dt rnd s) as (_ & _ & E & Ex & Evx & _).
  { fold b x1. rewrite Hpx, Hpw. right. lra. }
  { fold b x1. rewrite Hcx. left. lra. }
  { fold b x1. lra. }
  fold b x1 in Ex, Evx. fold b' in Ex, Evx. unfold b'. rewrite E.
  destruct (beforePaddles_ball dt s)
    as [(H1 & Ey & Ev) | [(H1 & H2 & Ey & Ev) | (H1 & H2 & Ey & Ev)]];
    fold b y1 in H1, Ey, Ev; try fold b y1 in H2;
    split; intros; try lra; rewrite Ey, Ev; unfold b' in Ex, Evx;
    rewrite E in Ex, Evx; repeat split; try assumption; subst y1; nra.
Qed.

(** *** The paddles' motion *)

Lemma clamp_cases v a b :
  a <= b ->
  (v <= a /\ clamp v a b = a) \/ (a <= v <= b /\ clamp v a b = v) \/
  (b <= v /\ clamp v a b = b).
Proof.
  intros Hab. unfold clamp, Rmax, Rmin.
  destruct (Rle_dec b v); destruct (Rle_dec a _); lra.
Qed.

Lemma Rabs_le_bounds a b : Rabs a <= b -> - b <= a <= b.
Proof. unfold Rabs. destruct (Rcase_abs a); lra. Qed.

Lemma cpuAI_y dt s :
  Paddle.y (cpu (cpuAI HEIGHT dt s)) =
  clamp (Paddle.y (cpu s)
         + clamp (cpuTarget HEIGHT s - Paddle.y (cpu s))
                 (- (Paddle.speed (cpu s) * dt * 10)) (Paddle.speed (cpu s) * dt * 10))
        0 (HEIGHT - Paddle.height (cpu s)).
Proof. reflexivity. Qed.

(** X5: in a tick with a non-negative elapsed time, the CPU paddle, if it is
    within the field, moves by at most maxStep = speed * dt * 10; it gets
    closer by maxStep to its target clamped to the field, or reaches it; and
    it is exactly on the clamped target after the tick when the target was
    within maxStep. *)
Theorem cpu_paddle_step dt rnd s :
  let c := cpu s in
  let maxStep := Paddle.speed c * dt * 10 in
  let goal := clamp (cpuTarget HEIGHT s) 0 (HEIGHT - Paddle.height c) in
  let y' := Paddle.y (cpu (update WIDTH HEIGHT dt rnd s)) in
  in_field HEIGHT c -> 0 <= Paddle.speed c -> 0 <= dt ->
  Rabs (y' - Paddle.y c) <= maxStep /\
  Rabs (y' - goal) <= Rmax 0 (Rabs (Paddle.y c - goal) - maxStep) /\
  (Rabs (cpuTarget HEIGHT s - Paddle.y c) <= maxStep -> y' = goal).
Proof.
  intros c maxStep goal y' Hin Hs Hdt. unfold in_field in Hin. fold c in Hin.
  assert (Hm : 0 <= maxStep) by (unfold maxStep; nra).
  unfold y'. rewrite update_cpu, cpuAI_y. fold c maxStep.
  set (t := cpuTarget HEIGHT s) in *. set (y := Paddle.y c) in *.
  set (L := HEIGHT - Paddle.height c) in *.
  pose proof (Rmax_l 0 (Rabs (y - goal) - maxStep)) as M1.
  pose proof (Rmax_r 0 (Rabs (y - goal) - maxStep)) as M2.
  set (M := Rmax 0 (Rabs (y - goal) - maxStep)) in *.
  assert (HL : 0 <= L) by lra.
  assert (Hmm : - maxStep <= maxStep) by lra.
  clearbody M. unfold goal in *. clear goal.
  destruct (clamp_cases t 0 L HL) as [(G1 & EG) | [(G1 & EG) | (G1 & EG)]];
  rewrite EG in *;
  destruct (clamp_cases (t - y) (- maxStep) maxStep Hmm)
    as [(S1 & ES) | [(S1 & ES) | (S1 & ES)]];
  rewrite ES;
  match goal with
  | |- context [clamp ?v 0 L] =>
      destruct (clamp_cases v 0 L HL) as [(C1 & EC) | [(C1 & EC) | (C1 & EC)]]
  end;
  rewrite EC;
  (split; [apply Rabs_le; lra|]);
  (split; [|intros Ht; apply Rabs_le_bounds in Ht; lra]);
  apply Rabs_le; revert M2; unfold Rabs; destruct (Rcase_abs _); intros; lra.
Qed.

(** X6: the player paddle, if it is within the field, moves in a tick with a
    non-negative elapsed time by at most speed * dt; it does not move when no
    arrow key is held, does not move down when Arrow Up is held (even with
    Arrow Down held too: Arrow Up wins), and does not move up when only Arrow
    Down is held. *)
Theorem player_paddle_step dt rnd s :
  let p := player s in
  let y' := Paddle.y (player (update WIDTH HEIGHT dt rnd s)) in
  in_field HEIGHT p -> 0 <= Paddle.speed p -> 0 <= dt ->
  Rabs (y' - Paddle.y p) <= Paddle.speed p * dt /\
  (KeyState.ArrowUp (keyState s) = false -> KeyState.ArrowDown (keyState s) = false ->
   y' = Paddle.y p) /\
  (KeyState.ArrowUp (keyState s) = true -> y' <= Paddle.y p) /\
  (KeyState.ArrowUp (keyState s) = false -> KeyState.ArrowDown (keyState s) = true ->
   Paddle.y p <= y').
Proof.
  intros p y' Hin Hs Hdt. unfold in_field in Hin. fold p in Hin.
  unfold y'. rewrite update_player, playerKeyboard_y. fold p.
  assert (HL : 0 <= HEIGHT - Paddle.height p) by lra.
  assert (Hsd : 0 <= Paddle.speed p * dt) by nra.
  unfold keyVelocity. fold p.
  destruct (KeyState.ArrowUp (keyState s)); [|destruct (KeyState.ArrowDown (keyState s))];
    match goal with
    | |- context [clamp ?v 0 ?L] =>
        destruct (clamp_cases v 0 L HL) as [(C1 & ->) | [(C1 & ->) | (C1 & ->)]]
    end;
    (split; [apply Rabs_le; lra|]);
    repeat split; intros; try discriminate; lra.
Qed.

(** *** The input handlers *)

(** X7: with no arrow key held, on a canvas at least as high as the paddle,
    the player paddle is after a tick where the last pointer sample put it:
    at the pointer's y minus half the paddle height, clamped to the field,
    whatever the elapsed time and whatever samples came before. *)
Theorem pointer_sets_paddle y1 y2 dt rnd s :
  let h := Paddle.height (player s) in
  KeyState.ArrowUp (keyState s) = false -> KeyState.ArrowDown (keyState s) = false ->
  h <= HEIGHT ->
  Paddle.y (player (tick WIDTH HEIGHT (Some y2) dt rnd (mousemove HEIGHT y1 s)))
  = clamp (y2 - h / 2) 0 (HEIGHT - h).
Proof.
  intros h Hu Hd Hh. rewrite tick_pointer_y.
  change (Paddle.height (player (mousemove HEIGHT y1 s))) with h.
  assert (Ek : keyVelocity (mousemove HEIGHT y1 s) = 0).
  { unfold keyVelocity.
    change (keyState (mousemove HEIGHT y1 s)) with (keyState s).
    now rewrite Hu, Hd. }
  rewrite Ek, Rmult_0_l, Rplus_0_r.
  apply clamp_inside, clamp_bounds. lra.
Qed.

(** X8: on a canvas at least as high as the paddle, [mousemove] puts the
    middle of the player paddle on the pointer when the pointer is at least
    half a paddle away from the top and bottom edges, and puts the paddle
    against the edge (y = 0, or y = HEIGHT - height) when the pointer is
    nearer to it or beyond. *)
Theorem mousemove_centres y s :
  let h := Paddle.height (player s) in
  let y' := Paddle.y (player (mousemove HEIGHT y s)) in
  h <= HEIGHT ->
  (h / 2 <= y <= HEIGHT - h / 2 -> y' + h / 2 = y) /\
  (y <= h / 2 -> y' = 0) /\
  (HEIGHT - h / 2 <= y -> y' = HEIGHT - h).
Proof.
  intros h y' Hh. unfold y', mousemove; simpl. fold h.
  assert (HL : 0 <= HEIGHT - h) by lra.
  destruct (clamp_cases (y - h / 2) 0 (HEIGHT - h) HL)
    as [(C1 & ->) | [(C1 & ->) | (C1 & ->)]];
    repeat split; intros; lra.
Qed.

(** X9: pressing a key that is not held and releasing it gives back the
    state as it was; a repeated [keydown] of the same key changes nothing
    more; and after a [keydown] of an arrow key, that key is held. *)
Theorem key_press_release c s :
  (held c s = false -> keyup c (keydown c s) = s) /\
  keydown c (keydown c s) = keydown c s /\
  (c <> Code_other -> held c (keydown c s) = true) /\
  held c (keyup c s) = false.
Proof.
  destruct s as [p cp b sc pa ma [ku kd]]. destruct c; simpl; repeat split;
    try congruence; intros ->; reflexivity.
Qed.

(** *** After a paddle bounce *)

(** X10: a paddle bounce puts the ball outside the paddle's collision
    condition: the condition of the paddle that the ball bounced off does
    not hold for the state after the bounce. *)
Theorem bounce_unsticks s :
  (hitsPlayer s = true -> hitsPlayer (collidePlayer s) = false) /\
  (hitsCpu s = true -> hitsCpu (collideCpu s) = false).
Proof.
  split; intros Hh.
  - unfold collidePlayer. rewrite Hh. apply hitsPlayer_outside. right.
    unfold bouncePlayer; simpl. lra.
  - unfold collideCpu. rewrite Hh. apply hitsCpu_outside. left.
    unfold bounceCpu; simpl. lra.
Qed.

(** With the paddles and the ball of the script, a ball that satisfies a
    paddle's collision condition has relativeY within 1.16 of 0. *)
Lemma hit_relativeY_range (b : Ball.t) (p : Paddle.t) :
  Paddle.height p = PADDLE_HEIGHT -> Ball.r b = 8 ->
  Paddle.y p <= Ball.y b + Ball.r b ->
  Ball.y b - Ball.r b <= Paddle.y p + Paddle.height p ->
  - 1.16 <= relativeY b p <= 1.16.
Proof.
  intros Hh Hr H1 H2. unfold relativeY. rewrite Hh in *. rewrite Hr in *.
  unfold PADDLE_HEIGHT in *.
  replace ((Ball.y b - (Paddle.y p + 100 / 2)) / (100 / 2))
    with ((Ball.y b - Paddle.y p - 50) / 50) by field.
  split.
  - apply Rmult_le_reg_r with 50; [lra|].
    replace ((Ball.y b - Paddle.y p - 50) / 50 * 50) with (Ball.y b - Paddle.y p - 50)
      by field. lra.
  - apply Rmult_le_reg_r with 50; [lra|].
    replace ((Ball.y b - Paddle.y p - 50) / 50 * 50) with (Ball.y b - Paddle.y p - 50)
      by field. lra.
Qed.

Lemma wide_angle_range rel :
  - 1.16 <= rel <= 1.16 ->
  - (PI / 2) < rel * MAX_BOUNCE_ANGLE < PI / 2 /\
  Rabs (rel * MAX_BOUNCE_ANGLE) <= degrees 87.
Proof.
  intros H. pose proof PI_RGT_0 as Hpi. unfold MAX_BOUNCE_ANGLE, degrees.
  split; [nra|]. apply Rabs_le. nra.
Qed.

Lemma bounce_velocity_polar (a v : R) :
  0 < v -> - (PI / 2) < a < PI / 2 ->
  0 < Rabs (cos a * v) /\
  angle_from_horizontal (Rabs (cos a * v)) (sin a * v) = a /\
  angle_from_horizontal (- Rabs (cos a * v)) (sin a * v) = a.
Proof.
  intros Hv Ha.
  assert (Hc : 0 < cos a) by (apply cos_gt_0; lra).
  split; [rewrite Rabs_pos_eq; nra|].
  rewrite angle_opp_l, angle_abs_l. split; now apply angle_polar.
Qed.

Lemma bouncePlayer_vx_pos s :
  Paddle.height (player s) = PADDLE_HEIGHT -> Ball.r (ball s) = 8 ->
  hitsPlayer s = true -> 0 < Ball.vx (ball (bouncePlayer s)).
Proof.
  intros Hph Hr Hh.
  pose proof (bounce_speed_pos (ball s)) as Hv. unfold ballSpeed in Hv.
  destruct (proj1 (hitsPlayer_true s) Hh) as (_ & H1 & H2).
  destruct (wide_angle_range _ (hit_relativeY_range _ _ Hph Hr H1 H2)) as [Ha _].
  destruct (bounce_velocity_polar _ _ Hv Ha) as (Hpos & _). exact Hpos.
Qed.

Lemma bounceCpu_vx_neg s :
  Paddle.height (cpu s) = PADDLE_HEIGHT -> Ball.r (ball s) = 8 ->
  hitsCpu s = true -> Ball.vx (ball (bounceCpu s)) < 0.
Proof.
  intros Hch Hr Hh.
  pose proof (bounce_speed_pos (ball s)) as Hv. unfold ballSpeed in Hv.
  destruct (proj1 (hitsCpu_true s) Hh) as (_ & H1 & H2).
  destruct (wide_angle_range _ (hit_relativeY_range _ _ Hch Hr H1 H2)) as [Ha _].
  destruct (bounce_velocity_polar _ _ Hv Ha) as (Hpos & _).
  unfold bounceCpu; simpl. lra.
Qed.

(** X11: with the paddles and the ball of the script, every bounce off the
    player paddle leaves the ball with a horizontal velocity that is
    strictly to the right, and every bounce off the CPU paddle strictly to
    the left: never vertical, never back into the paddle. *)
Theorem bounce_sends_ball_away s :
  fixed_fields WIDTH s ->
  (hitsPlayer s = true -> 0 < Ball.vx (ball (collidePlayer s))) /\
  (hitsCpu s = true -> Ball.vx (ball (collideCpu s)) < 0).
Proof.
  intros (_ & _ & Hph & _ & _ & _ & Hch & _ & Hr).
  split; intros Hh.
  - unfold collidePlayer. rewrite Hh. now apply bouncePlayer_vx_pos.
  - unfold collideCpu. rewrite Hh. now apply bounceCpu_vx_neg.
Qed.

(** X12: with the paddles and the ball of the script, the collision
    condition lets relativeY reach 1.16 in magnitude, so the angle of the
    outgoing velocity from the horizontal, which is
    relativeY * MAX_BOUNCE_ANGLE, can exceed 75 degrees; it is at most 87
    degrees in magnitude, for both paddles. *)
Theorem bounce_angle_at_most_87 s :
  fixed_fields WIDTH s ->
  (hitsPlayer s = true ->
   let b' := ball (collidePlayer s) in
   - 1.16 <= relativeY (ball s) (player s) <= 1.16 /\
   angle_from_horizontal (Ball.vx b') (Ball.vy b')
     = relativeY (ball s) (player s) * MAX_BOUNCE_ANGLE /\
   Rabs (angle_from_horizontal (Ball.vx b') (Ball.vy b')) <= degrees 87) /\
  (hitsCpu s = true ->
   let b' := ball (collideCpu s) in
   - 1.16 <= relativeY (ball s) (cpu s) <= 1.16 /\
   angle_from_horizontal (Ball.vx b') (Ball.vy b')
     = relativeY (ball s) (cpu s) * MAX_BOUNCE_ANGLE /\
   Rabs (angle_from_horizontal (Ball.vx b') (Ball.vy b')) <= degrees 87).
Proof.
  intros (_ & _ & Hph & _ & _ & _ & Hch & _ & Hr).
  pose proof (bounce_speed_pos (ball s)) as Hv. unfold ballSpeed in Hv.
  split; intros Hh b'; subst b'.
  - destruct (proj1 (hitsPlayer_true s) Hh) as (_ & H1 & H2).
    pose proof (hit_relativeY_range _ _ Hph Hr H1 H2) as Hrel.
    destruct (wide_angle_range _ Hrel) as [Ha Hb].
    destruct (bounce_velocity_polar _ _ Hv Ha) as (_ & E & _).
    unfold collidePlayer. rewrite Hh.
    change (angle_from_horizontal (Ball.vx (ball (bouncePlayer s)))
                                  (Ball.vy (ball (bouncePlayer s))))
      with (angle_from_horizontal
              (Rabs (cos (relativeY (ball s) (player s) * MAX_BOUNCE_ANGLE)
                     * (hypot (Ball.vx (ball s)) (Ball.vy (ball s)) + 0.2)))
              (sin (relativeY (ball s) (player s) * MAX_BOUNCE_ANGLE)
               * (hypot (Ball.vx (ball s)) (Ball.vy (ball s)) + 0.2))).
    rewrite E. repeat split; try apply Hrel. exact Hb.
  - destruct (proj1 (hitsCpu_true s) Hh) as (_ & H1 & H2).
    pose proof (hit_relativeY_range _ _ Hch Hr H1 H2) as Hrel.
    destruct (wide_angle_range _ Hrel) as [Ha Hb].
    destruct (bounce_velocity_polar _ _ Hv Ha) as (_ & _ & E).
    unfold collideCpu. rewrite Hh.
    change (angle_from_horizontal (Ball.vx (ball (bounceCpu s)))
                                  (Ball.vy (ball (bounceCpu s))))
      with (angle_from_horizontal
              (- Rabs (cos (relativeY (ball s) (cpu s) * MAX_BOUNCE_ANGLE)
                       * (hypot (Ball.vx (ball s)) (Ball.vy (ball s)) + 0.2)))
              (sin (relativeY (ball s) (cpu s) * MAX_BOUNCE_ANGLE)
               * (hypot (Ball.vx (ball s)) (Ball.vy (ball s)) + 0.2))).
    rewrite E. repeat split; try apply Hrel. exact Hb.
Qed.

(** *** Bounces and scores in a tick *)

Lemma beforePaddles_paused dt s : paused (beforePaddles HEIGHT dt s) = paused s.
Proof.
  unfold beforePaddles, collideWalls; cbv zeta.
  repeat match goal with
         | |- context [if ?c then _ else _] => destruct c
         end; reflexivity.
Qed.

Lemma beforePaddles_speed dt s :
  ballSpeed (ball (beforePaddles HEIGHT dt s)) = ballSpeed (ball s).
Proof. unfold beforePaddles. rewrite collideWalls_speed. reflexivity. Qed.

Lemma beforePaddles_fixed_fields dt s :
  fixed_fields WIDTH s -> fixed_fields WIDTH (beforePaddles HEIGHT dt s).
Proof.
  unfold fixed_fields, beforePaddles. intros H.
  rewrite collideWalls_player, collideWalls_cpu, collideWalls_ball_r.
  change (player (moveBall dt (cpuAI HEIGHT dt (playerKeyboard HEIGHT dt s))))
    with (player (playerKeyboard HEIGHT dt s)).
  destruct (playerKeyboard_player_fixed HEIGHT dt s) as (-> & -> & -> & ->).
  exact H.
Qed.

(** X13: on a canvas at least 61 wide, a tick in which the ball bounces off
    the player paddle ends with the ball just right of the paddle, at
    x = 30.5, flying right, faster by 0.2 than before the tick; the CPU
    paddle's collision does not fire in that tick and nobody scores.  The
    same, mirrored, for a bounce off the CPU paddle (x = WIDTH - 30.5). *)
Theorem bounce_tick dt rnd s :
  let s1 := beforePaddles HEIGHT dt s in
  let s' := update WIDTH HEIGHT dt rnd s in
  fixed_fields WIDTH s -> 61 <= WIDTH ->
  (hitsPlayer s1 = true ->
   hitsCpu (collidePlayer s1) = false /\
   Ball.x (ball s') = 30.5 /\ 0 < Ball.vx (ball s') /\
   ballSpeed (ball s') = ballSpeed (ball s) + 0.2 /\
   score s' = score s /\ paused s' = paused s) /\
  (hitsCpu s1 = true ->
   hitsPlayer s1 = false /\
   Ball.x (ball s') = WIDTH - 30.5 /\ Ball.vx (ball s') < 0 /\
   ballSpeed (ball s') = ballSpeed (ball s) + 0.2 /\
   score s' = score s /\ paused s' = paused s).
Proof.
  intros s1 s' Hf HW.
  pose proof (beforePaddles_fixed_fields dt s Hf) as Hf1. fold s1 in Hf1.
  destruct (beforePaddles_facts HEIGHT dt s) as (_ & _ & _ & _ & _ & _ & _ & Esc).
  pose proof (beforePaddles_paused dt s) as Epa.
  pose proof (beforePaddles_speed dt s) as Esp.
  fold s1 in Esc, Epa, Esp.
  pose proof Hf1 as (Hpx & Hpw & _ & _ & Hcx & Hcw & _ & _ & Hr).
  unfold PADDING, PADDLE_WIDTH in *.
  split; intros Hh.
  - assert (Ex : Ball.x (ball (collidePlayer s1)) = 30.5).
    { unfold collidePlayer. rewrite Hh. unfold bouncePlayer; simpl.
      rewrite Hpx, Hpw, Hr. lra. }
    assert (Hc : hitsCpu (collidePlayer s1) = false).
    { apply hitsCpu_outside. left.
      rewrite Ex, collidePlayer_ball_r, collidePlayer_cpu, Hr, Hcx. lra. }
    assert (E : s' = collidePlayer s1).
    { unfold s', update, beforeScore. fold s1. unfold collideCpu. rewrite Hc.
      unfold scoreConditions. rewrite Ex.
      rewrite (proj2 (Rlt_b_false _ _)) by lra.
      rewrite (proj2 (Rlt_b_false _ _)) by lra. reflexivity. }
    rewrite E. split; [exact Hc|]. split; [exact Ex|].
    unfold collidePlayer. rewrite Hh.
    split; [apply bouncePlayer_vx_pos; [apply Hf1 | apply Hf1 | exact Hh]|].
    rewrite bouncePlayer_speed, Esp. repeat split; assumption.
  - assert (Hp : hitsPlayer s1 = false).
    { apply hitsPlayer_outside. right.
      apply hitsCpu_true in Hh. rewrite Hpx, Hpw. rewrite Hcx, Hr in Hh. lra. }
    assert (Ex : Ball.x (ball (collideCpu s1)) = WIDTH - 30.5).
    { unfold collideCpu. rewrite Hh. unfold bounceCpu; simpl.
      rewrite Hcx, Hr. lra. }
    assert (E : s' = collideCpu s1).
    { unfold s', update, beforeScore. fold s1. unfold collidePlayer. rewrite Hp.
      unfold scoreConditions. rewrite Ex.
      rewrite (proj2 (Rlt_b_false _ _)) by lra.
      rewrite (proj2 (Rlt_b_false _ _)) by lra. reflexivity. }
    rewrite E. split; [exact Hp|]. split; [exact Ex|].
    unfold collideCpu. rewrite Hh.
    split; [apply bounceCpu_vx_neg; [apply Hf1 | apply Hf1 | exact Hh]|].
    rewrite bounceCpu_speed, Esp. repeat split; assumption.
Qed.

Lemma collidePlayer_ball_x s :
  Ball.x (ball (collidePlayer s)) = Ball.x (ball s) \/
  Ball.x (ball (collidePlayer s))
    = Paddle.x (player s) + Paddle.width (player s) + Ball.r (ball s) + 0.5.
Proof.
  unfold collidePlayer. destruct (hitsPlayer s); [right | left]; reflexivity.
Qed.

Lemma collideCpu_ball_x s :
  Ball.x (ball (collideCpu s)) = Ball.x (ball s) \/
  Ball.x (ball (collideCpu s)) = Paddle.x (cpu s) - Ball.r (ball s) - 0.5.
Proof.
  unfold collideCpu. destruct (hitsCpu s); [right | left]; reflexivity.
Qed.

(** Where the ball can be when [update] reaches the score conditions. *)
Lemma beforeScore_ball_x dt s :
  fixed_fields WIDTH s ->
  let x := Ball.x (ball (beforeScore HEIGHT dt s)) in
  x = Ball.x (ball s) + Ball.vx (ball s) * dt * 10 \/ x = 30.5 \/ x = WIDTH - 30.5.
Proof.
  intros Hf x. subst x.
  pose proof (beforePaddles_fixed_fields dt s Hf) as Hf1.
  destruct (beforePaddles_facts HEIGHT dt s) as (Ex & _).
  destruct Hf1 as (Hpx & Hpw & _ & _ & Hcx & _ & _ & _ & Hr).
  unfold PADDING, PADDLE_WIDTH in *. unfold beforeScore.
  destruct (collideCpu_ball_x (collidePlayer (beforePaddles HEIGHT dt s))) as [-> | ->].
  - destruct (collidePlayer_ball_x (beforePaddles HEIGHT dt s)) as [-> | ->].
    + left. exact Ex.
    + right. left. rewrite Hpx, Hpw, Hr. lra.
  - right. right. rewrite collidePlayer_cpu, collidePlayer_ball_r, Hcx, Hr. lra.
Qed.

Lemma scoreConditions_score rnd s :
  let x := Ball.x (ball s) in
  let s' := scoreConditions WIDTH HEIGHT rnd s in
  (x < - 50 /\ score s' = Score.mk (Score.player (score s)) (Score.cpu (score s) + 1)
   /\ paused s' = true) \/
  (- 50 <= x /\ WIDTH + 50 < x /\
   score s' = Score.mk (Score.player (score s) + 1) (Score.cpu (score s))
   /\ paused s' = true) \/
  (- 50 <= x <= WIDTH + 50 /\ s' = s).
Proof.
  intros x s'. subst s'. unfold scoreConditions. fold x.
  destruct (Rlt_b x (- 50)) eqn:E1.
  - apply Rlt_b_true in E1. left. repeat split. exact E1.
  - apply Rlt_b_false in E1. right.
    destruct (Rlt_b (WIDTH + 50) x) eqn:E2.
    + apply Rlt_b_true in E2. left. repeat split; assumption.
    + apply Rlt_b_false in E2. right. repeat split; assumption.
Qed.

(** X14: with the paddles and the ball of the script on a canvas of
    non-negative width, a tick changes the score exactly when the
    integration alone takes the ball's centre beyond the 50-unit margin:
    the CPU's score goes up by 1 when x + vx * dt * 10 < - 50, the player's
    when it is above WIDTH + 50 (no paddle can stop such a ball), and the
    scores are unchanged otherwise (a bounce never leads to a score). *)
Theorem score_iff_ball_leaves dt rnd s :
  let x1 := Ball.x (ball s) + Ball.vx (ball s) * dt * 10 in
  let s' := update WIDTH HEIGHT dt rnd s in
  fixed_fields WIDTH s -> 0 <= WIDTH ->
  (x1 < - 50 ->
   score s' = Score.mk (Score.player (score s)) (Score.cpu (score s) + 1)) /\
  (WIDTH + 50 < x1 ->
   score s' = Score.mk (Score.player (score s) + 1) (Score.cpu (score s))) /\
  (- 50 <= x1 <= WIDTH + 50 -> score s' = score s).
Proof.
  intros x1 s' Hf HW.
  pose proof (beforeScore_score HEIGHT dt s) as Esc.
  pose proof (beforeScore_ball_x dt s Hf) as Hx. cbv zeta in Hx. fold x1 in Hx.
  pose proof Hf as (Hpx & Hpw & _ & _ & Hcx & Hcw & _ & _ & Hr).
  unfold PADDING, PADDLE_WIDTH in *.
  assert (Hfree : x1 < - 50 \/ WIDTH + 50 < x1 ->
                  Ball.x (ball (beforeScore HEIGHT dt s)) = x1).
  { intros Hout.
    destruct (no_bounce HEIGHT dt s) as (_ & _ & -> & ->); fold x1.
    - rewrite Hpx, Hpw, Hr. lra.
    - rewrite Hcx, Hcw, Hr. lra.
    - reflexivity. }
  unfold s', update.
  destruct (scoreConditions_score rnd (beforeScore HEIGHT dt s))
    as [(H1 & E & _) | [(H1 & H2 & E & _) | (H1 & E)]]; rewrite E, ?Esc.
  - split; [reflexivity|]. split; intros H; [rewrite Hfree in H1 by lra |]; lra.
  - split; [intros H; rewrite Hfree in H1 by lra; lra|].
    split; [reflexivity|]. lra.
  - split; [intros H; rewrite Hfree in H1 by lra; lra|].
    split; [intros H; rewrite Hfree in H1 by lra; lra|]. reflexivity.
Qed.

(** X15: a score is followed by a pause.  A tick in which somebody scores
    sets [paused]; from then on every frame leaves the whole state as it is,
    until a click or the timer clears [paused], after which a frame runs
    [update] again.  A tick in which nobody scores leaves [paused] alone. *)
Theorem score_pauses_game dt rnd s :
  let m := beforeScore HEIGHT dt s in
  let s' := update WIDTH HEIGHT dt rnd s in
  (Ball.x (ball m) < - 50 \/ WIDTH + 50 < Ball.x (ball m) ->
   paused s' = true /\
   (forall dt2 rnd2, frame WIDTH HEIGHT dt2 rnd2 s' = s') /\
   (forall dt2 rnd2,
      frame WIDTH HEIGHT dt2 rnd2 (click s') = update WIDTH HEIGHT dt2 rnd2 (click s') /\
      frame WIDTH HEIGHT dt2 rnd2 (timer s') = update WIDTH HEIGHT dt2 rnd2 (timer s'))) /\
  (- 50 <= Ball.x (ball m) <= WIDTH + 50 -> paused s' = paused s).
Proof.
  intros m s'. unfold s', update. fold m.
  destruct (scoreConditions_score rnd m) as [(H1 & _ & E) | [(H1 & H2 & _ & E) | (H1 & E)]].
  - split; [|lra]. intros _. split; [exact E|].
    split; intros dt2 rnd2; unfold frame, click; rewrite ?E; [reflexivity|].
    split; reflexivity.
  - split; [|lra]. intros _. split; [exact E|].
    split; intros dt2 rnd2; unfold frame, click; rewrite ?E; [reflexivity|].
    split; reflexivity.
  - split; [lra|]. intros _. rewrite E. unfold m, beforeScore.
    unfold collideCpu, collidePlayer.
    destruct (hitsPlayer _); destruct (hitsCpu _); simpl; apply beforePaddles_paused.
Qed.

(** *** Over a whole game *)

Lemma update_score_le dt rnd s :
  let s' := update WIDTH HEIGHT dt rnd s in
  (Score.player (score s) <= Score.player (score s'))%nat /\
  (Score.cpu (score s) <= Score.cpu (score s'))%nat.
Proof.
  intros s'. unfold s', update.
  pose proof (beforeScore_score HEIGHT dt s) as Esc.
  destruct (scoreConditions_score rnd (beforeScore HEIGHT dt s))
    as [(_ & E & _) | [(_ & _ & E & _) | (_ & E)]]; rewrite E, ?Esc; simpl; lia.
Qed.

Lemma handle_score_le e s :
  (Score.player (score s) <= Score.player (score (handle WIDTH HEIGHT e s)))%nat /\
  (Score.cpu (score s) <= Score.cpu (score (handle WIDTH HEIGHT e s)))%nat.
Proof.
  destruct e as [dt rnd | y | c | c | |]; simpl;
    try (split; reflexivity).
  - unfold frame. destruct (paused s); [split; reflexivity | apply update_score_le].
  - destruct c; split; reflexivity.
  - destruct c; split; reflexivity.
  - unfold click. destruct (paused s); split; reflexivity.
Qed.

(** X16: whatever events the script handles, in whatever order and with
    whatever elapsed times, neither score ever goes down; and only frames
    can change a score. *)
Theorem scores_never_decrease es s :
  (Score.player (score s) <= Score.player (score (run WIDTH HEIGHT es s)))%nat /\
  (Score.cpu (score s) <= Score.cpu (score (run WIDTH HEIGHT es s)))%nat /\
  (forall e, (forall dt rnd, e <> Frame dt rnd) ->
             score (handle WIDTH HEIGHT e s) = score s).
Proof.
  split; [|split].
  - revert s. induction es as [|e es IH]; intros s; simpl; [lia|].
    pose proof (proj1 (handle_score_le e s)). pose proof (IH (handle WIDTH HEIGHT e s)). lia.
  - revert s. induction es as [|e es IH]; intros s; simpl; [lia|].
    pose proof (proj2 (handle_score_le e s)). pose proof (IH (handle WIDTH HEIGHT e s)). lia.
  - intros e He. destruct e as [dt rnd | y | c | c | |]; simpl;
      try reflexivity.
    + exfalso. exact (He dt rnd eq_refl).
    + destruct c; reflexivity.
    + destruct c; reflexivity.
    + unfold click. destruct (paused s); reflexivity.
Qed.

Lemma resetBall_speed d rnd1 rnd2 s :
  ballSpeed (ball (resetBall WIDTH HEIGHT d rnd1 rnd2 s)) = 6.
Proof.
  destruct (resetBall_ball WIDTH HEIGHT d rnd1 rnd2 s) as (_ & _ & _ & Hvy & Hvx & _).
  unfold ballSpeed. rewrite Hvy.
  set (a := rnd1 * (PI / 3) - PI / 6) in *.
  replace (6 * sin a) with (sin a * 6) by ring.
  destruct Hvx as [-> | ->]; [|rewrite hypot_opp_l];
    replace (6 * cos a) with (cos a * 6) by ring; apply hypot_polar; lra.
Qed.

Lemma beforeScore_ball_speed_field dt s :
  Ball.speed (ball (beforeScore HEIGHT dt s)) = Ball.speed (ball s).
Proof.
  unfold beforeScore, beforePaddles, collideCpu, collidePlayer, collideWalls; cbv zeta.
  repeat match goal with
         | |- context [if ?c then _ else _] => destruct c
         end; reflexivity.
Qed.

Lemma scoreConditions_ball rnd s :
  ball (scoreConditions WIDTH HEIGHT rnd s) = ball s \/
  exists d s0, ball (scoreConditions WIDTH HEIGHT rnd s)
               = ball (resetBall WIDTH HEIGHT d rnd 0 s0).
Proof.
  unfold scoreConditions.
  destruct (Rlt_b _ _); [|destruct (Rlt_b _ _)].
  - right. eexists _, _. reflexivity.
  - right. eexists _, _. reflexivity.
  - left. reflexivity.
Qed.

Lemma update_speed_invariant dt rnd s :
  Ball.speed (ball s) = 6 /\ 6 <= ballSpeed (ball s) ->
  Ball.speed (ball (update WIDTH HEIGHT dt rnd s)) = 6 /\
  6 <= ballSpeed (ball (update WIDTH HEIGHT dt rnd s)).
Proof.
  intros [H1 H2]. unfold update.
  pose proof (beforeScore_speed_le HEIGHT dt s) as Hle.
  pose proof (beforeScore_ball_speed_field dt s) as Hf.
  destruct (scoreConditions_ball rnd (beforeScore HEIGHT dt s)) as [-> | (d & s0 & ->)].
  - rewrite Hf. split; [exact H1 | lra].
  - rewrite resetBall_speed. split; [reflexivity | lra].
Qed.

(** X17: in every state that the running script can reach, the ball is at
    least as fast as the base speed, 6 <= sqrt (vx * vx + vy * vy), while
    the field [ball.speed] is 6: it is the speed of a serve, and no bounce
    updates it. *)
Theorem ball_never_slower_than_serve s :
  reachable WIDTH HEIGHT s ->
  Ball.speed (ball s) = 6 /\ 6 <= ballSpeed (ball s).
Proof.
  induction 1 as [rnd1 rnd2 H1 H2 | e s Hs IH Ha].
  - split; [reflexivity|]. rewrite resetBall_speed. lra.
  - destruct e as [dt rnd | y | c | c | |]; simpl.
    + unfold frame. destruct (paused s); [exact IH | now apply update_speed_invariant].
    + exact IH.
    + destruct c; exact IH.
    + destruct c; exact IH.
    + unfold click. destruct (paused s); exact IH.
    + exact IH.
Qed.

(** X18: a serve is never steep: for every value of [Math.random()] in
    [0, 1), the vertical velocity that [resetBall] gives is in [- 3, 3) and
    the horizontal one is at least the square root of 27 in magnitude
    (more than 5 of the 6 units of speed). *)
Theorem serve_not_steep d rnd1 rnd2 s :
  0 <= rnd1 < 1 ->
  let b := ball (resetBall WIDTH HEIGHT d rnd1 rnd2 s) in
  - 3 <= Ball.vy b < 3 /\ 27 <= Ball.vx b * Ball.vx b /\ 5 < Rabs (Ball.vx b).
Proof.
  intros Hr b.
  destruct (resetBall_ball WIDTH HEIGHT d rnd1 rnd2 s) as (_ & _ & _ & Hvy & Hvx & _).
  fold b in Hvy, Hvx.
  pose proof (serve_angle_range rnd1 Hr) as Ha.
  pose proof (serve_cos_pos rnd1 Hr) as Hc.
  pose proof PI_RGT_0 as Hpi.
  set (a := rnd1 * (PI / 3) - PI / 6) in *.
  assert (Hlo : - (1 / 2) <= sin a).
  { rewrite <- sin_PI6, <- sin_neg. apply sin_incr_1; lra. }
  assert (Hhi : sin a < 1 / 2).
  { rewrite <- sin_PI6. apply sin_increasing_1; lra. }
  pose proof (sin2_cos2 a) as Hsc. unfold Rsqr in Hsc.
  assert (Hcc : 3 / 4 <= cos a * cos a) by nra.
  assert (Hvv : 27 <= Ball.vx b * Ball.vx b) by (destruct Hvx as [-> | ->]; nra).
  split; [rewrite Hvy; lra|]. split; [exact Hvv|].
  unfold Rabs. destruct (Rcase_abs (Ball.vx b)); nra.
Qed.

(** *** The animation loop *)

(** X19: [loop] passes to [update] an elapsed time that is the time since
    the previous frame in units of 16.6667 ms, not negative when the time
    stamps do not decrease; it is 0 on the first frame, and also on any
    frame that follows a time stamp of 0, which [loop] takes for no frame at
    all; a paused game is left as it is; and [lastTime] becomes the time
    stamp. *)
Theorem loop_elapsed ts rnd lastTime s :
  0 <= lastTime <= ts ->
  fst (loop WIDTH HEIGHT ts rnd lastTime s) = ts /\
  (exists elapsed,
     0 <= elapsed /\ elapsed * 16.6667 <= ts - lastTime /\
     (lastTime <> 0 -> elapsed * 16.6667 = ts - lastTime) /\
     (lastTime = 0 -> elapsed = 0) /\
     snd (loop WIDTH HEIGHT ts rnd lastTime s) = frame WIDTH HEIGHT elapsed rnd s) /\
  (paused s = true -> snd (loop WIDTH HEIGHT ts rnd lastTime s) = s).
Proof.
  intros Ht. unfold loop; simpl. split; [reflexivity|]. split.
  - destruct (Req_dec_T lastTime 0) as [E | E].
    + exists 0. unfold frame. replace ((ts - ts) / 16.6667) with 0 by (field; lra).
      repeat split; intros; try lra; try reflexivity; try contradiction.
    + exists ((ts - lastTime) / 16.6667). unfold frame.
      assert (Hdiv : (ts - lastTime) / 16.6667 * 16.6667 = ts - lastTime) by (field; lra).
      assert (Hpos : 0 <= (ts - lastTime) / 16.6667).
      { apply Rmult_le_reg_r with 16.6667; [lra|]. rewrite Hdiv. lra. }
      repeat split; intros; try lra; try reflexivity; try contradiction.
  - intros ->. reflexivity.
Qed.

(** [update] with an elapsed time of 0 on a state in which nothing touches. *)
Lemma update_zero_quiet rnd s :
  in_field HEIGHT (player s) -> in_field HEIGHT (cpu s) ->
  Ball.r (ball s) < Ball.y (ball s) -> Ball.y (ball s) + Ball.r (ball s) < HEIGHT ->
  hitsPlayer s = false -> hitsCpu s = false ->
  - 50 <= Ball.x (ball s) <= WIDTH + 50 ->
  update WIDTH HEIGHT 0 rnd s = set_player s (Paddle.set_dy (player s) (keyVelocity s)).
Proof.
  intros Hp Hc Hy1 Hy2 H1 H2 Hx.
  unfold update, beforeScore, beforePaddles.
  rewrite (playerKeyboard_zero HEIGHT) by exact Hp.
  rewrite (cpuAI_zero HEIGHT) by exact Hc.
  rewrite moveBall_zero.
  rewrite (collideWalls_inside HEIGHT) by assumption.
  unfold collidePlayer.
  change (hitsPlayer (set_player s (Paddle.set_dy (player s) (keyVelocity s))))
    with (hitsPlayer s).
  rewrite H1. unfold collideCpu.
  change (hitsCpu (set_player s (Paddle.set_dy (player s) (keyVelocity s))))
    with (hitsCpu s).
  rewrite H2. unfold scoreConditions.
  change (ball (set_player s (Paddle.set_dy (player s) (keyVelocity s))))
    with (ball s).
  rewrite (proj2 (Rlt_b_false _ _)) by lra.
  rewrite (proj2 (Rlt_b_false _ _)) by lra. reflexivity.
Qed.

(** X20: the first animation frame changes nothing.  On a canvas at least 61
    wide and 100 high, [loop] called for the first time (lastTime = 0) on
    the state that the script starts in, whatever [Math.random()] gave for
    the serve, returns that state: the elapsed time is 0, the ball stays at
    the centre with its serve velocity, and the paddles stay centred. *)
Theorem first_frame_changes_nothing ts rnd rnd1 rnd2 :
  61 <= WIDTH -> PADDLE_HEIGHT <= HEIGHT ->
  let s := resetBall WIDTH HEIGHT None rnd1 rnd2 (state0 WIDTH HEIGHT) in
  loop WIDTH HEIGHT ts rnd 0 s = (ts, s).
Proof.
  intros HW HH s. unfold loop.
  destruct (Req_dec_T 0 0) as [_ | E]; [|contradiction].
  replace ((ts - ts) / 16.6667) with 0 by (field; lra).
  change (paused s) with false. cbv iota. f_equal.
  unfold PADDLE_HEIGHT in HH.
  rewrite update_zero_quiet.
  - reflexivity.
  - unfold in_field, s; simpl. unfold PADDLE_HEIGHT. lra.
  - unfold in_field, s; simpl. unfold PADDLE_HEIGHT. lra.
  - unfold s; simpl. lra.
  - unfold s; simpl. lra.
  - apply hitsPlayer_outside. right. unfold s; simpl.
    unfold PADDING, PADDLE_WIDTH. lra.
  - apply hitsCpu_outside. left. unfold s; simpl.
    unfold PADDING, PADDLE_WIDTH. lra.
  - unfold s; simpl. lra.
Qed.

(** *** The sounds of a tick *)

Lemma score_changes_iff dt rnd s :
  score (update WIDTH HEIGHT dt rnd s) <> score s <->
  Ball.x (ball (beforeScore HEIGHT dt s)) < - 50 \/
  WIDTH + 50 < Ball.x (ball (beforeScore HEIGHT dt s)).
Proof.
  unfold update. pose proof (beforeScore_score HEIGHT dt s) as Esc.
  destruct (scoreConditions_score rnd (beforeScore HEIGHT dt s))
    as [(H1 & E & _) | [(H1 & H2 & E & _) | (H1 & E)]]; rewrite E, ?Esc.
  - split; [intros _; left; exact H1|]. intros _ Heq.
    apply (f_equal Score.cpu) in Heq. simpl in Heq. lia.
  - split; [intros _; right; exact H2|]. intros _ Heq.
    apply (f_equal Score.player) in Heq. simpl in Heq. lia.
  - split; [intros Hn; now elim Hn | lra].
Qed.

Lemma player_hit_excludes_cpu dt s :
  fixed_fields WIDTH s -> 61 <= WIDTH ->
  hitsPlayer (beforePaddles HEIGHT dt s) = true ->
  hitsCpu (collidePlayer (beforePaddles HEIGHT dt s)) = false /\
  Ball.x (ball (beforeScore HEIGHT dt s)) = 30.5.
Proof.
  intros Hf HW Hh.
  pose proof (beforePaddles_fixed_fields dt s Hf) as (Hpx & Hpw & _ & _ & Hcx & _ & _ & _ & Hr).
  unfold PADDING, PADDLE_WIDTH in *.
  assert (Ex : Ball.x (ball (collidePlayer (beforePaddles HEIGHT dt s))) = 30.5).
  { unfold collidePlayer. rewrite Hh. unfold bouncePlayer; simpl.
    rewrite Hpx, Hpw, Hr. lra. }
  assert (Hc : hitsCpu (collidePlayer (beforePaddles HEIGHT dt s)) = false).
  { apply hitsCpu_outside. left.
    rewrite Ex, collidePlayer_ball_r, collidePlayer_cpu, Hr, Hcx. lra. }
  split; [exact Hc|]. unfold beforeScore, collideCpu. rewrite Hc. exact Ex.
Qed.

Lemma cpu_hit_position dt s :
  fixed_fields WIDTH s ->
  hitsCpu (collidePlayer (beforePaddles HEIGHT dt s)) = true ->
  Ball.x (ball (beforeScore HEIGHT dt s)) = WIDTH - 30.5.
Proof.
  intros Hf Hh.
  pose proof (beforePaddles_fixed_fields dt s Hf) as (_ & _ & _ & _ & Hcx & _ & _ & _ & Hr).
  unfold PADDING, PADDLE_WIDTH in *.
  unfold beforeScore, collideCpu. rewrite Hh. unfold bounceCpu; simpl.
  rewrite collidePlayer_cpu, collidePlayer_ball_r, Hcx, Hr. lra.
Qed.

(** X21: the sounds of a tick.  [update] plays nothing while the audio is
    locked.  It plays the score sound exactly when the audio is unlocked and
    the tick changes the score.  With the paddles and the ball of the script
    on a canvas at least 61 wide, no sound is played twice in a tick (the
    two paddles never both sound), and the paddle sound and the score sound
    never come in the same tick. *)
Theorem sounds_of_a_tick audioUnlocked dt rnd s :
  let sounds := updateSounds WIDTH HEIGHT audioUnlocked dt s in
  (audioUnlocked = false -> sounds = nil) /\
  (In ScoreSound sounds <->
   audioUnlocked = true /\ score (update WIDTH HEIGHT dt rnd s) <> score s) /\
  (fixed_fields WIDTH s -> 61 <= WIDTH ->
   NoDup sounds /\ ~ (In PaddleSound sounds /\ In ScoreSound sounds)).
Proof.
  intros sounds. subst sounds. unfold updateSounds; cbv zeta.
  fold (beforePaddles HEIGHT dt s). fold (beforeScore HEIGHT dt s).
  split; [intros ->; reflexivity|]. split.
  - rewrite (score_changes_iff dt rnd s).
    destruct audioUnlocked; [|simpl; intuition discriminate].
    rewrite !in_app_iff.
    destruct (Rle_b _ 0); [|destruct (Rle_b HEIGHT _)];
      destruct (hitsPlayer _); destruct (hitsCpu _);
      (destruct (Rlt_b _ (- 50)) eqn:E1;
       [apply Rlt_b_true in E1
       |apply Rlt_b_false in E1; destruct (Rlt_b (WIDTH + 50) _) eqn:E2;
        [apply Rlt_b_true in E2 | apply Rlt_b_false in E2]]);
      simpl; split;
      try (intros _; split; [reflexivity | tauto]);
      try (intros [_ [H | H]]; exfalso; lra);
      intuition discriminate.
  - intros Hf HW.
    pose proof (player_hit_excludes_cpu dt s Hf HW) as F1.
    pose proof (cpu_hit_position dt s Hf) as F2.
    destruct audioUnlocked; [|split; [constructor | simpl; tauto]].
    destruct (hitsPlayer (beforePaddles HEIGHT dt s));
      [destruct (F1 eq_refl) as [-> Ex]
      |destruct (hitsCpu (collidePlayer (beforePaddles HEIGHT dt s)));
       [pose proof (F2 eq_refl) as Ex|]];
      try rewrite Ex;
      try (rewrite (proj2 (Rlt_b_false _ (- 50))) by lra;
           rewrite (proj2 (Rlt_b_false (WIDTH + 50) _)) by lra);
      destruct (Rle_b _ 0); try destruct (Rle_b HEIGHT _);
      try destruct (Rlt_b _ (- 50)); try destruct (Rlt_b (WIDTH + 50) _);
      simpl;
      (split;
       [repeat (constructor; [simpl; intuition discriminate|]); constructor
       |intuition discriminate]).
Qed.

End MoreProperties.

(** ** The further properties on the example states *)

(** X2 on a canvas of 800 by 50. *)
Lemma short_canvas_pins_paddles_witness :
  50 < Paddle.height (player (state0 800 50)) /\
  50 < Paddle.height (cpu (state0 800 50)) /\
  Paddle.y (player (update 800 50 1 0 (state0 800 50))) = 0 /\
  Paddle.y (cpu (update 800 50 1 0 (state0 800 50))) = 0.
Proof.
  assert (Hp : 50 < Paddle.height (player (state0 800 50)))
    by (simpl; unfold PADDLE_HEIGHT; lra).
  assert (Hc : 50 < Paddle.height (cpu (state0 800 50)))
    by (simpl; unfold PADDLE_HEIGHT; lra).
  split; [exact Hp|]. split; [exact Hc|].
  destruct (short_canvas_pins_paddles 800 50 1 0 0 (state0 800 50) Hp Hc) as (H1 & H2 & _).
  split; [exact H1 | exact H2].
Defined.

(** X3 on a rally with a negative elapsed time. *)
Lemma ball_between_walls_witness :
  2 * Ball.r (ball rally_state) <= 600 /\
  Ball.r (ball (update 800 600 (- 70) 0 rally_state))
    <= Ball.y (ball (update 800 600 (- 70) 0 rally_state))
    <= 600 - Ball.r (ball (update 800 600 (- 70) 0 rally_state)).
Proof.
  assert (Hr : 2 * Ball.r (ball rally_state) <= 600)
    by (unfold rally_state; simpl; lra).
  split; [exact Hr|].
  exact (proj2 (ball_between_walls 800 600 (- 70) 0 rally_state Hr)).
Defined.

(** X4 on a ball 12 units below the top wall going up at 3 per unit, and
    on one 12 units above the bottom wall going down. *)
Lemma wall_bounce_witness :
  (Ball.y (ball (update 800 600 1 0 top_wall_state)) = 8 /\
   Ball.vy (ball (update 800 600 1 0 top_wall_state)) = - - 3) /\
  (Ball.y (ball (update 800 600 1 0 bottom_wall_state)) = 600 - 8 /\
   Ball.vy (ball (update 800 600 1 0 bottom_wall_state)) = - 3).
Proof.
  split.
  - assert (Hf : fixed_fields 800 top_wall_state)
      by (apply state0_fixed_fields; reflexivity).
    assert (Hdt : 0 < 1) by lra.
    assert (Hx : PADDING + PADDLE_WIDTH + Ball.r (ball top_wall_state)
                 < Ball.x (ball top_wall_state) + Ball.vx (ball top_wall_state) * 1 * 10
                 < 800 - PADDING - PADDLE_WIDTH - Ball.r (ball top_wall_state))
      by (unfold top_wall_state; simpl; unfold PADDING, PADDLE_WIDTH; lra).
    assert (Hy : Ball.r (ball top_wall_state) <= Ball.y (ball top_wall_state)
                 <= 600 - Ball.r (ball top_wall_state))
      by (unfold top_wall_state; simpl; lra).
    assert (Htop : Ball.y (ball top_wall_state) + Ball.vy (ball top_wall_state) * 1 * 10
                   - Ball.r (ball top_wall_state) <= 0)
      by (unfold top_wall_state; simpl; lra).
    destruct (proj1 (wall_bounce 800 600 1 0 top_wall_state Hf Hdt Hx Hy) Htop)
      as (E1 & E2 & _).
    split; [exact E1 | exact E2].
  - assert (Hf : fixed_fields 800 bottom_wall_state)
      by (apply state0_fixed_fields; reflexivity).
    assert (Hdt : 0 < 1) by lra.
    assert (Hx : PADDING + PADDLE_WIDTH + Ball.r (ball bottom_wall_state)
                 < Ball.x (ball bottom_wall_state)
                   + Ball.vx (ball bottom_wall_state) * 1 * 10
                 < 800 - PADDING - PADDLE_WIDTH - Ball.r (ball bottom_wall_state))
      by (unfold bottom_wall_state; simpl; unfold PADDING, PADDLE_WIDTH; lra).
    assert (Hy : Ball.r (ball bottom_wall_state) <= Ball.y (ball bottom_wall_state)
                 <= 600 - Ball.r (ball bottom_wall_state))
      by (unfold bottom_wall_state; simpl; lra).
    assert (H1 : 0 < Ball.y (ball bottom_wall_state)
                     + Ball.vy (ball bottom_wall_state) * 1 * 10
                     - Ball.r (ball bottom_wall_state))
      by (unfold bottom_wall_state; simpl; lra).
    assert (H2 : 600 <= Ball.y (ball bottom_wall_state)
                        + Ball.vy (ball bottom_wall_state) * 1 * 10
                        + Ball.r (ball bottom_wall_state))
      by (unfold bottom_wall_state; simpl; lra).
    destruct (proj2 (wall_bounce 800 600 1 0 bottom_wall_state Hf Hdt Hx Hy) H1 H2)
      as (E1 & E2 & _).
    split; [exact E1 | exact E2].
Defined.

(** X5 on a rally: the CPU paddle is on its target, level with the ball, and
    moves by no more than maxStep. *)
Lemma cpu_paddle_step_witness :
  in_field 600 (cpu rally_state) /\ 0 <= Paddle.speed (cpu rally_state) /\ 0 <= 1 /\
  Rabs (Paddle.y (cpu (update 800 600 1 0 rally_state)) - Paddle.y (cpu rally_state))
  <= Paddle.speed (cpu rally_state) * 1 * 10.
Proof.
  assert (Hin : in_field 600 (cpu rally_state)) by apply rally_state_quiet.
  assert (Hs : 0 <= Paddle.speed (cpu rally_state)) by (simpl; lra).
  assert (Hdt : 0 <= 1) by lra.
  split; [exact Hin|]. split; [exact Hs|]. split; [exact Hdt|].
  exact (proj1 (cpu_paddle_step 800 600 1 0 rally_state Hin Hs Hdt)).
Defined.

(** X6 with Arrow Down held. *)
Lemma player_paddle_step_witness :
  in_field 600 (player key_down_state) /\ 0 <= Paddle.speed (player key_down_state) /\
  0 <= 1 /\
  Paddle.y (player key_down_state) <= Paddle.y (player (update 800 600 1 0 key_down_state)).
Proof.
  assert (Hin : in_field 600 (player key_down_state))
    by (unfold in_field; simpl; unfold PADDLE_HEIGHT; lra).
  assert (Hs : 0 <= Paddle.speed (player key_down_state)) by (simpl; lra).
  assert (Hdt : 0 <= 1) by lra.
  split; [exact Hin|]. split; [exact Hs|]. split; [exact Hdt|].
  destruct (player_paddle_step 800 600 1 0 key_down_state Hin Hs Hdt) as (_ & _ & _ & H).
  exact (H eq_refl eq_refl).
Defined.

(** X8 with the pointer in the middle of the canvas. *)
Lemma mousemove_centres_witness :
  Paddle.height (player (state0 800 600)) <= 600 /\
  Paddle.y (player (mousemove 600 300 (state0 800 600)))
  + Paddle.height (player (state0 800 600)) / 2 = 300.
Proof.
  assert (Hh : Paddle.height (player (state0 800 600)) <= 600)
    by (simpl; unfold PADDLE_HEIGHT; lra).
  split; [exact Hh|].
  apply (proj1 (mousemove_centres 600 300 (state0 800 600) Hh)).
  simpl; unfold PADDLE_HEIGHT; lra.
Defined.

(** X7 on two pointer samples in the initial state. *)
Lemma pointer_sets_paddle_witness :
  KeyState.ArrowUp (keyState (state0 800 600)) = false /\
  KeyState.ArrowDown (keyState (state0 800 600)) = false /\
  Paddle.height (player (state0 800 600)) <= 600 /\
  Paddle.y (player (tick 800 600 (Some 300) 1 0 (mousemove 600 100 (state0 800 600))))
  = clamp (300 - Paddle.height (player (state0 800 600)) / 2) 0
          (600 - Paddle.height (player (state0 800 600))).
Proof.
  assert (Hh : Paddle.height (player (state0 800 600)) <= 600)
    by (simpl; unfold PADDLE_HEIGHT; lra).
  split; [reflexivity|]. split; [reflexivity|]. split; [exact Hh|].
  exact (pointer_sets_paddle 800 600 100 300 1 0 (state0 800 600) eq_refl eq_refl Hh).
Defined.

(** X9 on Arrow Up in the initial state. *)
Lemma key_press_release_witness :
  held Code_ArrowUp (state0 800 600) = false /\
  keyup Code_ArrowUp (keydown Code_ArrowUp (state0 800 600)) = state0 800 600.
Proof.
  split; [reflexivity|].
  exact (proj1 (key_press_release Code_ArrowUp (state0 800 600)) eq_refl).
Defined.

(** X10 and X11 on a ball in contact with the player paddle. *)
Lemma bounce_unsticks_witness :
  hitsPlayer hit_player_state = true /\
  hitsPlayer (collidePlayer hit_player_state) = false.
Proof.
  split; [exact hit_player_state_hits|].
  exact (proj1 (bounce_unsticks hit_player_state) hit_player_state_hits).
Defined.

Lemma bounce_sends_ball_away_witness :
  fixed_fields 800 hit_player_state /\ hitsPlayer hit_player_state = true /\
  0 < Ball.vx (ball (collidePlayer hit_player_state)).
Proof.
  assert (Hf : fixed_fields 800 hit_player_state)
    by (apply state0_fixed_fields; reflexivity).
  split; [exact Hf|]. split; [exact hit_player_state_hits|].
  exact (proj1 (bounce_sends_ball_away 800 hit_player_state Hf) hit_player_state_hits).
Defined.

Lemma graze_state_hits : hitsPlayer graze_state = true.
Proof.
  apply hitsPlayer_true. unfold graze_state; simpl.
  unfold PADDING, PADDLE_WIDTH, PADDLE_HEIGHT. lra.
Qed.

(** X12 on a ball that touches the lowest point of the player paddle: the
    outgoing angle is 87 degrees, more than 75. *)
Lemma bounce_angle_at_most_87_witness :
  fixed_fields 800 graze_state /\ hitsPlayer graze_state = true /\
  angle_from_horizontal (Ball.vx (ball (collidePlayer graze_state)))
                        (Ball.vy (ball (collidePlayer graze_state))) = degrees 87 /\
  degrees 75 < degrees 87.
Proof.
  assert (Hf : fixed_fields 800 graze_state)
    by (apply state0_fixed_fields; reflexivity).
  split; [exact Hf|]. split; [exact graze_state_hits|].
  destruct (proj1 (bounce_angle_at_most_87 800 graze_state Hf) graze_state_hits)
    as (_ & E & _).
  split.
  - rewrite E. unfold relativeY, graze_state, MAX_BOUNCE_ANGLE, degrees; simpl.
    unfold PADDLE_HEIGHT. field.
  - unfold degrees. pose proof PI_RGT_0. lra.
Defined.

Lemma approach_state_hits : hitsPlayer (beforePaddles 600 1 approach_state) = true.
Proof.
  apply hitsPlayer_true.
  destruct (beforePaddles_facts 600 1 approach_state) as (Ex & _ & Er & Epx & Epw & _).
  rewrite Ex, Er, Epx, Epw.
  unfold beforePaddles. rewrite collideWalls_player.
  change (player (moveBall 1 (cpuAI 600 1 (playerKeyboard 600 1 approach_state))))
    with (player (playerKeyboard 600 1 approach_state)).
  destruct (playerKeyboard_player_fixed 600 1 approach_state) as (_ & _ & -> & _).
  rewrite playerKeyboard_y.
  change (keyVelocity approach_state) with 0.
  fold (beforePaddles 600 1 approach_state).
  assert (Ey : Ball.y (ball (beforePaddles 600 1 approach_state)) = 300).
  { destruct (beforePaddles_ball 600 1 approach_state)
      as [(H1 & _) | [(_ & H2 & _) | (_ & _ & -> & _)]];
      unfold approach_state in *; simpl in *; lra. }
  rewrite Ey. unfold approach_state; simpl.
  unfold PADDING, PADDLE_WIDTH, PADDLE_HEIGHT.
  rewrite clamp_inside by lra. lra.
Qed.

(** X13 on a ball one tick away from the middle of the player paddle. *)
Lemma bounce_tick_witness :
  fixed_fields 800 approach_state /\ 61 <= 800 /\
  hitsPlayer (beforePaddles 600 1 approach_state) = true /\
  Ball.x (ball (update 800 600 1 0 approach_state)) = 30.5 /\
  0 < Ball.vx (ball (update 800 600 1 0 approach_state)) /\
  score (update 800 600 1 0 approach_state) = score approach_state.
Proof.
  assert (Hf : fixed_fields 800 approach_state)
    by (apply state0_fixed_fields; reflexivity).
  assert (HW : 61 <= 800) by lra.
  split; [exact Hf|]. split; [exact HW|]. split; [exact approach_state_hits|].
  destruct (proj1 (bounce_tick 800 600 1 0 approach_state Hf HW) approach_state_hits)
    as (_ & Ex & Hv & _ & Hs & _).
  split; [exact Ex|]. split; [exact Hv | exact Hs].
Defined.

(** X14 on a ball that leaves the field on the left. *)
Lemma score_iff_ball_leaves_witness :
  fixed_fields 800 exit_left_state /\ 0 <= 800 /\
  Ball.x (ball exit_left_state) + Ball.vx (ball exit_left_state) * 10 * 10 < - 50 /\
  score (update 800 600 10 0 exit_left_state) = Score.mk 0 1.
Proof.
  assert (Hf : fixed_fields 800 exit_left_state)
    by (apply state0_fixed_fields; reflexivity).
  assert (HW : 0 <= 800) by lra.
  assert (Hx : Ball.x (ball exit_left_state)
               + Ball.vx (ball exit_left_state) * 10 * 10 < - 50)
    by (unfold exit_left_state; simpl; lra).
  split; [exact Hf|]. split; [exact HW|]. split; [exact Hx|].
  exact (proj1 (score_iff_ball_leaves 800 600 10 0 exit_left_state Hf HW) Hx).
Defined.

(** X15 on the same tick: the game is paused after it. *)
Lemma score_pauses_game_witness :
  Ball.x (ball (beforeScore 600 10 exit_left_state)) < - 50 /\
  paused (update 800 600 10 0 exit_left_state) = true /\
  frame 800 600 1 0 (update 800 600 10 0 exit_left_state)
  = update 800 600 10 0 exit_left_state.
Proof.
  assert (Hx : Ball.x (ball (beforeScore 600 10 exit_left_state)) < - 50)
    by (rewrite exit_left_before_score; lra).
  split; [exact Hx|].
  destruct (proj1 (score_pauses_game 800 600 10 0 exit_left_state) (or_introl Hx))
    as (Hp & Hfr & _).
  split; [exact Hp | exact (Hfr 1 0)].
Defined.

(** X16 on a click. *)
Lemma scores_never_decrease_witness :
  (forall dt rnd, Click <> Frame dt rnd) /\
  score (handle 800 600 Click start_state) = score start_state.
Proof.
  assert (H : forall dt rnd, Click <> Frame dt rnd) by (intros dt rnd; discriminate).
  split; [exact H|].
  exact (proj2 (proj2 (scores_never_decrease 800 600 nil start_state)) Click H).
Defined.

(** X17 on the state in which the script starts. *)
Lemma ball_never_slower_than_serve_witness :
  reachable 800 600 start_state /\ 6 <= ballSpeed (ball start_state).
Proof.
  split; [exact start_state_reachable|].
  exact (proj2 (ball_never_slower_than_serve 800 600 start_state start_state_reachable)).
Defined.

(** X18 on a serve with [Math.random()] = 0, the steepest one. *)
Lemma serve_not_steep_witness :
  0 <= 0 < 1 /\
  5 < Rabs (Ball.vx (ball (resetBall 800 600 None 0 0 (state0 800 600)))).
Proof.
  assert (Hr : 0 <= 0 < 1) by lra.
  split; [exact Hr|].
  exact (proj2 (proj2 (serve_not_steep 800 600 None 0 0 (state0 800 600) Hr))).
Defined.

(** X19 on a frame 16.6667 ms after the previous one. *)
Lemma loop_elapsed_witness :
  0 <= 1000 <= 1016.6667 /\
  fst (loop 800 600 1016.6667 0 1000 rally_state) = 1016.6667.
Proof.
  assert (Ht : 0 <= 1000 <= 1016.6667) by lra.
  split; [exact Ht|].
  exact (proj1 (loop_elapsed 800 600 1016.6667 0 1000 rally_state Ht)).
Defined.

(** X20 on a canvas of 800 by 600. *)
Lemma first_frame_changes_nothing_witness :
  61 <= 800 /\ PADDLE_HEIGHT <= 600 /\
  loop 800 600 16 0 0 start_state = (16, start_state).
Proof.
  assert (HW : 61 <= 800) by lra.
  assert (HH : PADDLE_HEIGHT <= 600) by (unfold PADDLE_HEIGHT; lra).
  split; [exact HW|]. split; [exact HH|].
  exact (first_frame_changes_nothing 800 600 16 0 (1 / 2) 0 HW HH).
Defined.

(** X21 on a rally: no sound twice. *)
Lemma sounds_of_a_tick_witness :
  fixed_fields 800 rally_state /\ 61 <= 800 /\
  NoDup (updateSounds 800 600 true 1 rally_state).
Proof.
  assert (Hf : fixed_fields 800 rally_state)
    by (apply state0_fixed_fields; reflexivity).
  assert (HW : 61 <= 800) by lra.
  split; [exact Hf|]. split; [exact HW|].
  exact (proj1 (proj2 (proj2 (sounds_of_a_tick 800 600 true 1 0 rally_state)) Hf HW)).
Defined.
